(** * Viewport layout of the crane-operator scene

    A shallow embedding of [app.Scene] from
    [static/scenes/craneoperator/js/scene.js]: the layout pass
    [calculateViewport_], the accessors [getWidth] and [getPortraitMode],
    the two visibility toggles and the click handlers that call them.
    [dispose] and [onFinishExecution] read and write none of the fields of
    the scene; they are modelled on the page around the scene and on the
    result of a run.  The array of [levels.js] and the pick handlers of
    [HexGeometryMap] ([src/snowball/entities/hex-geometry-map.js]) follow.

    Conventions of the embedding.
    - A JavaScript number is an exact rational ([Q]).  The window
      dimensions are integral pixel counts and every literal of the file is
      a short decimal, so each intermediate value of the layout pass is a
      rational; rounding of IEEE doubles is not modelled.  Division is the
      one of [Q] (total, [x / 0 == 0]); the only divisor of the layout pass
      that is not a positive literal or a clamped window height is
      [VIEWPORT_MAX_TILES_X] / [VIEWPORT_MAX_TILES_Y], which depend on
      [app.Constants].
    - The code rounds every product, quotient and difference to a double,
      and at a window such as 1366x657 the rounded width differs from the
      exact one in its last digit, enough to turn the comparison of the
      portrait decision.  The statement that rests on that comparison
      coming out as "not below" is therefore made over [Binary64], the
      same layout pass in IEEE 754 binary64 arithmetic as the standard
      library specifies it.
    - A field holding [null] or [undefined] until it is first assigned is
      an [option]: [None] is [null]/[undefined].
    - The scene object is a record threaded through every method
      (explicit state passing).  The part of the DOM the methods write, and
      the calls made on collaborators, are fields of that record.
    - [app.Constants] is declared in another file of the game; its members
      are taken as a parameter of the development. *)

From Stdlib Require Import PeanoNat QArith Qminmax Lqa Lia Bool List String.
From Stdlib Require Import SpecFloat.
Import ListNotations.

Open Scope Q_scope.

(** ** JavaScript primitives used by the scene *)

Module Math.

(** [Math.max] on two numbers. *)
Definition max (a b : Q) : Q := Qmax a b.

(** [Math.min] on two numbers. *)
Definition min (a b : Q) : Q := Qmin a b.

End Math.

(** [a < b] on numbers. *)
Definition Qltb (a b : Q) : bool :=
  match a ?= b with
  | Lt => true
  | _ => false
  end.

(** [a === b] where [a] is a number and [b] is a number or [null]. *)
Definition strict_eq (a : Q) (b : option Q) : bool :=
  match b with
  | Some v => Qeq_bool a v
  | None => false
  end.

(** Truthiness of a field that holds a boolean or [undefined]. *)
Definition truthy (b : option bool) : bool :=
  match b with
  | Some v => v
  | None => false
  end.

(** ** Constants *)

(** The members of [app.Constants] the scene reads. *)
Record Constants : Type := {
  LEVEL_USABLE_MAX_COLS : Q;
  LEVEL_USABLE_MIN_COLS : Q;
  LEVEL_USABLE_ROWS : Q;
  BLOCKLY_MIN_WIDTH : Q;
  EDGE_MIN_WIDTH : Q;
  SCENE_TOGGLE_DURATION : Q
}.

(** ** The world the scene lives in *)

(** What one layout pass reads from the browser and from the blockly
    wrapper: [window.innerWidth], [window.innerHeight] and the value
    [this.blockly_.getToolbarWidth()] would return. *)
Record Host : Type := {
  window_innerWidth : Q;
  window_innerHeight : Q;
  blockly_toolbarWidth : Q
}.

(** Calls made on collaborators, most recent first. *)
Inductive Call : Type :=
  | GetToolbarWidth                  (* this.blockly_.getToolbarWidth() *)
  | DismissTutorial (name : string)  (* this.game.dismissTutorial(name) *)
  | ResetAnimation                   (* this.blockRunner_.resetAnimation() *)
  | Execute                          (* this.blockRunner_.execute() *)
  | ExecuteAfter (delay : Q).        (* window.setTimeout(execute, delay) *)

(** The DOM state the scene writes. *)
Record Dom : Type := {
  parent_responsive : bool;      (* 'responsive' in parentEl_.classList *)
  parent_show : bool;            (* 'show' in parentEl_.classList *)
  el_fontSize_px : option Q;     (* el_.style.fontSize, in px *)
  el_width_px : option Q;        (* el_.style.width, in px *)
  el_hidden : bool;              (* el_.hidden *)
  underlay_hidden : bool         (* underlayEl_.hidden *)
}.

(** The fields of [app.Scene]. *)
Record Scene : Type := {
  cachedWindowHeight_ : option Q;
  cachedWindowWidth_ : option Q;
  level : option nat;
  portraitMode_ : bool;
  width_ : option Q;
  scaleRatio_ : option Q;
  visible_ : option bool;
  dom : Dom;
  calls : list Call
}.

(** ** Sample values

    Concrete inputs on which the theorems below are run. *)

(** Modelled from the spec: [app.Constants] is declared outside the files
    at hand.  The grid sizes are the ones behind the spec's example
    scenario ([maxTilesX = 10.6], [minTilesX = 7.45], [maxTilesY = 9.6]);
    the spec gives no figure for the three remaining members, which get
    sample values here. *)
Definition sample_Constants : Constants :=
  {| LEVEL_USABLE_MAX_COLS := 10;
     LEVEL_USABLE_MIN_COLS := 7;
     LEVEL_USABLE_ROWS := 9;
     BLOCKLY_MIN_WIDTH := 450;
     EDGE_MIN_WIDTH := 48;
     SCENE_TOGGLE_DURATION := 600 |}.

(** A page in which no class is set and nothing is hidden. *)
Definition sample_Dom : Dom :=
  {| parent_responsive := false;
     parent_show := false;
     el_fontSize_px := None;
     el_width_px := None;
     el_hidden := false;
     underlay_hidden := false |}.

(** A 1200x800 window beside a 300px toolbar. *)
Definition host_1200x800 : Host :=
  {| window_innerWidth := 1200;
     window_innerHeight := 800;
     blockly_toolbarWidth := 300 |}.

(** The same window once the toolbar has collapsed to nothing. *)
Definition host_1200x800_collapsed : Host :=
  {| window_innerWidth := 1200;
     window_innerHeight := 800;
     blockly_toolbarWidth := 0 |}.

(** A 1600x900 window beside a 250px toolbar. *)
Definition host_1600x900 : Host :=
  {| window_innerWidth := 1600;
     window_innerHeight := 900;
     blockly_toolbarWidth := 250 |}.

(** A 200x100 window, below the floor in both directions. *)
Definition host_200x100 : Host :=
  {| window_innerWidth := 200;
     window_innerHeight := 100;
     blockly_toolbarWidth := 0 |}.

(** ** Results of a run of the blocks *)

(** The members of an [app.LevelResult] that [onFinishExecution] reads or
    writes.  [graphic] is a selector or [null] ([None]); [isFinalLevel] is
    [undefined] ([None]) until it is set. *)
Record LevelResult : Type := {
  levelComplete : bool;
  graphic : option string;
  isFinalLevel : option bool
}.

(** The two dialogs of the game: [this.game.successResult] and
    [this.game.failureResult]. *)
Inductive Dialog : Type :=
  | SuccessResult
  | FailureResult.

(** A level object is known by its identity, a number; [app.levels] is the
    list of the identities of its elements.  [levels.js] pushes one level
    onto the empty array. *)
Definition app_levels : list nat := [0%nat].

(** [levels[levels.length - 1]]; [None] is [undefined], the value of the
    expression on an empty array. *)
Definition last_level (levels : list nat) : option nat :=
  match levels with
  | [] => None
  | _ :: _ => nth_error levels (List.length levels - 1)
  end.

(** [this.level === levels[levels.length - 1]]: the left operand is a level
    or [null], the right one a level or [undefined], and [null] is not
    [undefined]. *)
Definition level_strict_eq (a b : option nat) : bool :=
  match a, b with
  | Some x, Some y => Nat.eqb x y
  | _, _ => false
  end.

(** ** The page around the scene *)

(** The scene together with what its constructor leaves in the browser:
    the four listeners and the animation-frame request. *)
Record Page : Type := {
  scene : Scene;
  resize_listener : bool;    (* window 'resize' -> calculateViewportHandler_ *)
  run_listener : bool;       (* buttonEl_ 'click' -> onClickRun_ *)
  scene_listener : bool;     (* el_ 'click' -> onClickScene_ *)
  underlay_listener : bool;  (* underlayEl_ 'click' -> onClickUnderlay_ *)
  frame_requested : bool     (* the requestAnimationFrame callback is pending *)
}.

(** What the browser may deliver to the page: a resize of the window, the
    next animation frame, and a click dispatched to the listeners of the
    play button, of the scene element or of the underlay. *)
Inductive BrowserEvent : Type :=
  | BrResize (h : Host)
  | BrAnimationFrame (h : Host)
  | BrClickButton
  | BrClickScene
  | BrClickUnderlay.

(** ** JavaScript arrays

    Dense arrays as lists; the elements are function references, known by
    their identity. *)

(** [l.indexOf(x)]: the first index holding [x], or [-1]. *)
Fixpoint indexOf (x : nat) (l : list nat) : Z :=
  match l with
  | [] => (-1)%Z
  | y :: l' =>
      if Nat.eqb y x then 0%Z
      else let i := indexOf x l' in
           if (i <? 0)%Z then (-1)%Z else (i + 1)%Z
  end.

(** The array left by [l.splice(start, deleteCount)]: a negative [start]
    counts from the end, and both arguments are clamped to the array. *)
Definition splice (start deleteCount : Z) (l : list nat) : list nat :=
  let len := Z.of_nat (List.length l) in
  let relativeStart :=
    if (start <? 0)%Z then Z.max (len + start) 0 else Z.min start len in
  let actualDeleteCount :=
    Z.min (Z.max deleteCount 0) (len - relativeStart) in
  firstn (Z.to_nat relativeStart) l ++
  skipn (Z.to_nat (relativeStart + actualDeleteCount)) l.

(** ** The pick handlers of the hex map

    [HexGeometryMap] of [src/snowball/entities/hex-geometry-map.js], as far
    as its own fields go: the list of pick handlers, [map] and [tileCount].
    The meshes, materials and the subscription to the input system that
    [setup], [teardown] and [update] handle belong to the rendering library
    and to the game and are left out. *)
Module HexGeometryMap.

(** A pick handler, known by its identity. *)
Abbreviation Handler := nat (only parsing).

(** A pick event, known by its identity. *)
Abbreviation PickEvent := nat (only parsing).

Record t : Type := {
  pickHandlers : list Handler;
  map : option nat;
  tileCount : Z
}.

(** [new HexGeometryMap()]. *)
Definition new : t :=
  {| pickHandlers := []; map := None; tileCount := 0%Z |}.

(** [setup(game)], where [grid_width] and [grid_height] are the members of
    [game.mapSystem.grid] it multiplies: the product goes to a local
    constant, and the handler list is replaced by an empty one. *)
Definition setup (grid_width grid_height : Z) (m : t) : t :=
  let tileCount_local := (grid_width * grid_height)%Z in
  {| pickHandlers := []; map := map m; tileCount := tileCount m |}.

(** [handlePick(handler)]: the state after the push.  The function it
    returns is [unsubscribe handler]. *)
Definition handlePick (handler : Handler) (m : t) : t :=
  {| pickHandlers := pickHandlers m ++ [handler];
     map := map m;
     tileCount := tileCount m |}.

(** A call of the function returned by [handlePick(handler)]. *)
Definition unsubscribe (handler : Handler) (m : t) : t :=
  {| pickHandlers :=
       splice (indexOf handler (pickHandlers m)) 1 (pickHandlers m);
     map := map m;
     tileCount := tileCount m |}.

(** What the body of a handler may do to the map while it runs: register
    a handler, or call a function some [handlePick] returned. *)
Inductive Action : Type :=
  | Subscribe (handler : Handler)
  | Unsubscribe (handler : Handler).

Definition perform (a : Action) (m : t) : t :=
  match a with
  | Subscribe handler => handlePick handler m
  | Unsubscribe handler => unsubscribe handler m
  end.

Fixpoint perform_all (acts : list Action) (m : t) : t :=
  match acts with
  | [] => m
  | a :: acts' => perform_all acts' (perform a m)
  end.

(** [this.pickHandlers.forEach(handler => handler(event))], from index [k]
    with [n] indices left to visit: the length is read once, before the
    first call; an index past the current end of the array is skipped.
    [body handler] is what the handler does to the map; the calls made are
    logged in order. *)
Fixpoint forEach (body : Handler -> list Action) (event : PickEvent)
    (n k : nat) (m : t) (log : list (Handler * PickEvent))
    : t * list (Handler * PickEvent) :=
  match n with
  | O => (m, log)
  | S n' =>
      match nth_error (pickHandlers m) k with
      | Some handler =>
          forEach body event n' (S k) (perform_all (body handler) m)
            (log ++ [(handler, event)])
      | None => forEach body event n' (S k) m log
      end
  end.

(** The listener [setup] hands to the input system, run on one pick
    event. *)
Definition pick (body : Handler -> list Action) (event : PickEvent) (m : t)
    : t * list (Handler * PickEvent) :=
  forEach body event (List.length (pickHandlers m)) 0 m [].

(** The calls the map receives from outside. *)
Inductive Op : Type :=
  | OpSetup (grid_width grid_height : Z)
  | OpHandlePick (handler : Handler)
  | OpUnsubscribe (handler : Handler)
  | OpPick (event : PickEvent).

Definition apply (body : Handler -> list Action) (o : Op) (m : t) : t :=
  match o with
  | OpSetup grid_width grid_height => setup grid_width grid_height m
  | OpHandlePick handler => handlePick handler m
  | OpUnsubscribe handler => unsubscribe handler m
  | OpPick event => fst (pick body event m)
  end.

Fixpoint apply_all (body : Handler -> list Action) (ops : list Op) (m : t) : t :=
  match ops with
  | [] => m
  | o :: ops' => apply_all body ops' (apply body o m)
  end.

End HexGeometryMap.

(** ** The layout pass in the arithmetic of the code

    A JavaScript number is an IEEE 754 binary64 value.  The standard
    library specifies that arithmetic over [spec_float] (53 bits of
    precision, exponents up to 1024, rounding to nearest even); the layout
    pass is embedded here over it, operation for operation, so that each
    product, quotient and difference is rounded where the code rounds
    it.  The numbers a browser hands in are the [spec_float]s in canonical
    form; the theorems hold for every [spec_float]. *)
Module Binary64.

Definition prec : Z := 53.
Definition emax : Z := 1024.

Definition num : Type := spec_float.

(** The double an integer below 2^53 in magnitude is. *)
Definition of_Z (z : Z) : num := binary_normalize prec emax z 0 false.

(** The double a decimal literal [n / d] denotes: reading a literal rounds
    its exact value to the nearest double, and so does the division of two
    exactly represented integers. *)
Definition dec (n d : Z) : num := SFdiv prec emax (of_Z n) (of_Z d).

Definition add (a b : num) : num := SFadd prec emax a b.
Definition sub (a b : num) : num := SFsub prec emax a b.
Definition mul (a b : num) : num := SFmul prec emax a b.
Definition div (a b : num) : num := SFdiv prec emax a b.

(** [a < b], [a <= b] and [a === b] on numbers. *)
Definition ltb (a b : num) : bool := SFltb a b.
Definition leb (a b : num) : bool := SFleb a b.
Definition eqb (a b : num) : bool := SFeqb a b.

Definition is_nan (a : num) : bool :=
  match a with
  | S754_nan => true
  | _ => false
  end.

Definition is_negative_zero (a : num) : bool :=
  match a with
  | S754_zero true => true
  | _ => false
  end.

Module Math.

(** [Math.max] on two numbers: [NaN] if either is, and [+0] counts as
    larger than [-0]. *)
Definition max (a b : num) : num :=
  if is_nan a || is_nan b then S754_nan
  else if ltb a b then b
  else if ltb b a then a
  else if is_negative_zero a then b else a.

(** [Math.min] on two numbers: [NaN] if either is, and [-0] counts as
    smaller than [+0]. *)
Definition min (a b : num) : num :=
  if is_nan a || is_nan b then S754_nan
  else if ltb a b then a
  else if ltb b a then b
  else if is_negative_zero a then a else b.

End Math.

(** [a === b] where [b] is a number or [null]. *)
Definition strict_eq (a : num) (b : option num) : bool :=
  match b with
  | Some v => eqb a v
  | None => false
  end.

Record Constants : Type := {
  LEVEL_USABLE_MAX_COLS : num;
  LEVEL_USABLE_MIN_COLS : num;
  LEVEL_USABLE_ROWS : num;
  BLOCKLY_MIN_WIDTH : num;
  EDGE_MIN_WIDTH : num;
  SCENE_TOGGLE_DURATION : num
}.

Record Host : Type := {
  window_innerWidth : num;
  window_innerHeight : num;
  blockly_toolbarWidth : num
}.

Record Dom : Type := {
  parent_responsive : bool;
  parent_show : bool;
  el_fontSize_px : option num;
  el_width_px : option num;
  el_hidden : bool;
  underlay_hidden : bool
}.

Record Scene : Type := {
  cachedWindowHeight_ : option num;
  cachedWindowWidth_ : option num;
  level : option nat;
  portraitMode_ : bool;
  width_ : option num;
  scaleRatio_ : option num;
  visible_ : option bool;
  dom : Dom;
  calls : list Call
}.

(** The constants of the sample configuration, as doubles. *)
Definition sample_Constants : Constants :=
  {| LEVEL_USABLE_MAX_COLS := of_Z 10;
     LEVEL_USABLE_MIN_COLS := of_Z 7;
     LEVEL_USABLE_ROWS := of_Z 9;
     BLOCKLY_MIN_WIDTH := of_Z 450;
     EDGE_MIN_WIDTH := of_Z 48;
     SCENE_TOGGLE_DURATION := of_Z 600 |}.

Definition sample_Dom : Dom :=
  {| parent_responsive := false;
     parent_show := false;
     el_fontSize_px := None;
     el_width_px := None;
     el_hidden := false;
     underlay_hidden := false |}.

(** A window of [w] by [h] pixels beside a toolbar of [t] pixels. *)
Definition host_px (w h t : Z) : Host :=
  {| window_innerWidth := of_Z w;
     window_innerHeight := of_Z h;
     blockly_toolbarWidth := of_Z t |}.

Section Scene.

Variable app_Constants : Constants.

Definition VIEWPORT_TILE_MARGIN : num := dec 3 10.

Definition VIEWPORT_MAX_TILES_X : num :=
  add (LEVEL_USABLE_MAX_COLS app_Constants) (mul VIEWPORT_TILE_MARGIN (of_Z 2)).

Definition VIEWPORT_MIN_TILES_X : num :=
  add (LEVEL_USABLE_MIN_COLS app_Constants)
      (mul VIEWPORT_TILE_MARGIN (dec 15 10)).

Definition VIEWPORT_MAX_TILES_Y : num :=
  add (LEVEL_USABLE_ROWS app_Constants) (mul VIEWPORT_TILE_MARGIN (of_Z 2)).

Definition VIEWPORT_MIN_TILES_Y : num :=
  add (of_Z 9) (mul VIEWPORT_TILE_MARGIN (of_Z 2)).

Definition TILE_SIZE : num := of_Z 8.

Definition TILE_MARGIN : num := dec 4 10.

Definition TILE_OUTER_SIZE : num := add TILE_SIZE TILE_MARGIN.

(** The assignments of the constructor that precede its call of
    [calculateViewport_]. *)
Definition init (d : Dom) : Scene :=
  {| cachedWindowHeight_ := None;
     cachedWindowWidth_ := None;
     level := None;
     portraitMode_ := false;
     width_ := None;
     scaleRatio_ := None;
     visible_ := None;
     dom := d;
     calls := [] |}.

(** [app.Scene.prototype.calculateViewport_(force, event)]. *)
Definition calculateViewport_ (force : bool) (h : Host) (s : Scene) : Scene :=
  let min := of_Z 320 in
  let innerWidth := Math.max min (window_innerWidth h) in
  let innerHeight := Math.max min (window_innerHeight h) in
  if negb force &&
     strict_eq innerHeight (cachedWindowHeight_ s) &&
     strict_eq innerWidth (cachedWindowWidth_ s)
  then s
  else
    let aspectRatio :=
      Math.min (Math.max (div (div innerWidth (of_Z 2)) innerHeight)
                         (div VIEWPORT_MIN_TILES_X VIEWPORT_MAX_TILES_Y))
               (div VIEWPORT_MAX_TILES_X VIEWPORT_MIN_TILES_Y) in
    let width := mul innerHeight aspectRatio in
    let tileSize :=
      Math.max (div innerHeight VIEWPORT_MAX_TILES_Y)
               (div width VIEWPORT_MAX_TILES_X) in
    let workspaceWidth := sub innerWidth (blockly_toolbarWidth h) in
    let '(portraitMode, width) :=
      if ltb (sub workspaceWidth width) (BLOCKLY_MIN_WIDTH app_Constants)
      then (true, sub innerWidth (EDGE_MIN_WIDTH app_Constants))
      else (false, width) in
    let scaleRatio := div tileSize (mul TILE_OUTER_SIZE (of_Z 10)) in
    {| cachedWindowHeight_ := Some innerHeight;
       cachedWindowWidth_ := Some innerWidth;
       level := level s;
       portraitMode_ := portraitMode;
       width_ := Some width;
       scaleRatio_ := Some scaleRatio;
       visible_ := visible_ s;
       dom := {| parent_responsive := portraitMode;
                 parent_show := parent_show (dom s);
                 el_fontSize_px := Some (mul scaleRatio (of_Z 10));
                 el_width_px := Some width;
                 el_hidden := el_hidden (dom s);
                 underlay_hidden := underlay_hidden (dom s) |};
       calls := GetToolbarWidth :: calls s |}.

(** The locals of one layout pass, as functions of what the pass reads. *)

Definition clampedWidth (h : Host) : num :=
  Math.max (of_Z 320) (window_innerWidth h).

Definition clampedHeight (h : Host) : num :=
  Math.max (of_Z 320) (window_innerHeight h).

(** The guard of the early return. *)
Definition cache_hit (force : bool) (h : Host) (s : Scene) : bool :=
  negb force &&
  strict_eq (clampedHeight h) (cachedWindowHeight_ s) &&
  strict_eq (clampedWidth h) (cachedWindowWidth_ s).

(** [aspectRatio]. *)
Definition aspectRatio (h : Host) : num :=
  Math.min (Math.max (div (div (clampedWidth h) (of_Z 2)) (clampedHeight h))
                     (div VIEWPORT_MIN_TILES_X VIEWPORT_MAX_TILES_Y))
           (div VIEWPORT_MAX_TILES_X VIEWPORT_MIN_TILES_Y).

(** [width] as first assigned, before the portrait branch. *)
Definition derivedWidth (h : Host) : num :=
  mul (clampedHeight h) (aspectRatio h).

(** [workspaceWidth]. *)
Definition workspaceWidth (h : Host) : num :=
  sub (clampedWidth h) (blockly_toolbarWidth h).

End Scene.

End Binary64.

Section Scene.

Variable app_Constants : Constants.

(** ** Static members of [app.Scene] *)

Definition VIEWPORT_TILE_MARGIN : Q := 0.3.

Definition VIEWPORT_MAX_TILES_X : Q :=
  LEVEL_USABLE_MAX_COLS app_Constants + VIEWPORT_TILE_MARGIN * 2.

Definition VIEWPORT_MIN_TILES_X : Q :=
  LEVEL_USABLE_MIN_COLS app_Constants + VIEWPORT_TILE_MARGIN * 1.5.

Definition VIEWPORT_MAX_TILES_Y : Q :=
  LEVEL_USABLE_ROWS app_Constants + VIEWPORT_TILE_MARGIN * 2.

Definition VIEWPORT_MIN_TILES_Y : Q :=
  9 + VIEWPORT_TILE_MARGIN * 2.

Definition TILE_SIZE : Q := 8.

Definition TILE_MARGIN : Q := 0.4.

Definition TILE_OUTER_SIZE : Q := TILE_SIZE + TILE_MARGIN.

(** ** Methods *)

(** The assignments of the constructor that precede its call of
    [calculateViewport_]; [d] is the DOM the scene is attached to. *)
Definition init (d : Dom) : Scene :=
  {| cachedWindowHeight_ := None;
     cachedWindowWidth_ := None;
     level := None;
     portraitMode_ := false;
     width_ := None;
     scaleRatio_ := None;
     visible_ := None;
     dom := d;
     calls := [] |}.

(** [app.Scene.prototype.calculateViewport_(force, event)].  The [event]
    argument is not read by the body. *)
Definition calculateViewport_ (force : bool) (h : Host) (s : Scene) : Scene :=
  let min := 320 in
  let innerWidth := Math.max min (window_innerWidth h) in
  let innerHeight := Math.max min (window_innerHeight h) in
  if negb force &&
     strict_eq innerHeight (cachedWindowHeight_ s) &&
     strict_eq innerWidth (cachedWindowWidth_ s)
  then s
  else
    let aspectRatio :=
      Math.min (Math.max (innerWidth / 2 / innerHeight)
                         (VIEWPORT_MIN_TILES_X / VIEWPORT_MAX_TILES_Y))
               (VIEWPORT_MAX_TILES_X / VIEWPORT_MIN_TILES_Y) in
    let width := innerHeight * aspectRatio in
    let tileSize :=
      Math.max (innerHeight / VIEWPORT_MAX_TILES_Y)
               (width / VIEWPORT_MAX_TILES_X) in
    let workspaceWidth := innerWidth - blockly_toolbarWidth h in
    let '(portraitMode, width) :=
      if Qltb (workspaceWidth - width) (BLOCKLY_MIN_WIDTH app_Constants)
      then (true, innerWidth - EDGE_MIN_WIDTH app_Constants)
      else (false, width) in
    let scaleRatio := tileSize / (TILE_OUTER_SIZE * 10) in
    {| cachedWindowHeight_ := Some innerHeight;
       cachedWindowWidth_ := Some innerWidth;
       level := level s;
       portraitMode_ := portraitMode;
       width_ := Some width;
       scaleRatio_ := Some scaleRatio;
       visible_ := visible_ s;
       dom := {| parent_responsive := portraitMode;
                 parent_show := parent_show (dom s);
                 el_fontSize_px := Some (scaleRatio * 10);
                 el_width_px := Some width;
                 el_hidden := el_hidden (dom s);
                 underlay_hidden := underlay_hidden (dom s) |};
       calls := GetToolbarWidth :: calls s |}.

(** [new app.Scene(el, game, blockly)]: the field initialisers followed by
    the unforced layout pass that ends the constructor.  The forced pass
    the constructor schedules for the next animation frame, and the resize
    listener, arrive later as events (see [Event]). *)
Definition new_Scene (d : Dom) (h : Host) : Scene :=
  calculateViewport_ false h (init d).

(** [this.calculateViewportHandler_], i.e. [calculateViewport_.bind(this, true)]. *)
Definition calculateViewportHandler_ (h : Host) (s : Scene) : Scene :=
  calculateViewport_ true h s.

(** [app.Scene.prototype.reset]. *)
Definition reset (s : Scene) : Scene :=
  {| cachedWindowHeight_ := cachedWindowHeight_ s;
     cachedWindowWidth_ := cachedWindowWidth_ s;
     level := None;
     portraitMode_ := portraitMode_ s;
     width_ := width_ s;
     scaleRatio_ := scaleRatio_ s;
     visible_ := visible_ s;
     dom := dom s;
     calls := calls s |}.

(** [app.Scene.prototype.getPortraitMode]. *)
Definition getPortraitMode (s : Scene) : bool := portraitMode_ s.

(** [app.Scene.prototype.setLevel]. *)
Definition setLevel (l : nat) (s : Scene) : Scene :=
  {| cachedWindowHeight_ := cachedWindowHeight_ s;
     cachedWindowWidth_ := cachedWindowWidth_ s;
     level := Some l;
     portraitMode_ := portraitMode_ s;
     width_ := width_ s;
     scaleRatio_ := scaleRatio_ s;
     visible_ := visible_ s;
     dom := dom s;
     calls := calls s |}.

(** Appends a collaborator call to the log of the scene. *)
Definition record_call (c : Call) (s : Scene) : Scene :=
  {| cachedWindowHeight_ := cachedWindowHeight_ s;
     cachedWindowWidth_ := cachedWindowWidth_ s;
     level := level s;
     portraitMode_ := portraitMode_ s;
     width_ := width_ s;
     scaleRatio_ := scaleRatio_ s;
     visible_ := visible_ s;
     dom := dom s;
     calls := c :: calls s |}.

(** [app.Scene.prototype.restartLevel]. *)
Definition restartLevel (s : Scene) : Scene := record_call ResetAnimation s.

(** [app.Scene.prototype.portraitToggleScene(visible, userAction)]. *)
Definition portraitToggleScene (visible userAction : bool) (s : Scene) : Scene :=
  let s1 :=
    if userAction then record_call (DismissTutorial "codelab_tray.mp4") s
    else s in
  {| cachedWindowHeight_ := cachedWindowHeight_ s1;
     cachedWindowWidth_ := cachedWindowWidth_ s1;
     level := level s1;
     portraitMode_ := portraitMode_ s1;
     width_ := width_ s1;
     scaleRatio_ := scaleRatio_ s1;
     visible_ := visible_ s1;
     dom := {| parent_responsive := parent_responsive (dom s1);
               parent_show := negb visible;
               el_fontSize_px := el_fontSize_px (dom s1);
               el_width_px := el_width_px (dom s1);
               el_hidden := el_hidden (dom s1);
               underlay_hidden := underlay_hidden (dom s1) |};
     calls := calls s1 |}.

(** [app.Scene.prototype.onClickScene_]. *)
Definition onClickScene_ (s : Scene) : Scene := portraitToggleScene true true s.

(** [app.Scene.prototype.onClickUnderlay_]. *)
Definition onClickUnderlay_ (s : Scene) : Scene := portraitToggleScene false true s.

(** [app.Scene.prototype.onClickRun_].  The two calls that open the handler
    ([ev.stopPropagation()], [this.buttonEl_.blur()]) touch neither the
    scene nor the part of the DOM kept here. *)
Definition onClickRun_ (s : Scene) : Scene :=
  if portraitMode_ s
  then record_call (ExecuteAfter (SCENE_TOGGLE_DURATION app_Constants))
         (portraitToggleScene true false s)
  else record_call Execute s.

(** [app.Scene.prototype.getWidth]; [None] is [undefined]. *)
Definition getWidth (s : Scene) : option Q :=
  if negb (truthy (visible_ s)) then Some 0
  else if portraitMode_ s then Some (EDGE_MIN_WIDTH app_Constants)
  else width_ s.

(** [app.Scene.prototype.toggleVisibility(visible)]. *)
Definition toggleVisibility (visible : bool) (s : Scene) : Scene :=
  {| cachedWindowHeight_ := cachedWindowHeight_ s;
     cachedWindowWidth_ := cachedWindowWidth_ s;
     level := level s;
     portraitMode_ := portraitMode_ s;
     width_ := width_ s;
     scaleRatio_ := scaleRatio_ s;
     visible_ := Some visible;
     dom := {| parent_responsive := parent_responsive (dom s);
               parent_show := parent_show (dom s);
               el_fontSize_px := el_fontSize_px (dom s);
               el_width_px := el_width_px (dom s);
               el_hidden := negb visible;
               underlay_hidden := negb visible |};
     calls := calls s |}.

(** ** Events

    The ways the scene is driven after construction: the resize listener
    and the animation-frame callback (both forced layout passes), direct
    calls of the layout pass, the click handlers, and the public methods. *)
Inductive Event : Type :=
  | EvResize (h : Host)
  | EvAnimationFrame (h : Host)
  | EvCalculateViewport (force : bool) (h : Host)
  | EvClickScene
  | EvClickUnderlay
  | EvClickRun
  | EvPortraitToggleScene (visible userAction : bool)
  | EvToggleVisibility (visible : bool)
  | EvReset
  | EvSetLevel (l : nat)
  | EvRestartLevel.

Definition step (e : Event) (s : Scene) : Scene :=
  match e with
  | EvResize h => calculateViewportHandler_ h s
  | EvAnimationFrame h => calculateViewport_ true h s
  | EvCalculateViewport force h => calculateViewport_ force h s
  | EvClickScene => onClickScene_ s
  | EvClickUnderlay => onClickUnderlay_ s
  | EvClickRun => onClickRun_ s
  | EvPortraitToggleScene visible userAction =>
      portraitToggleScene visible userAction s
  | EvToggleVisibility visible => toggleVisibility visible s
  | EvReset => reset s
  | EvSetLevel l => setLevel l s
  | EvRestartLevel => restartLevel s
  end.

Fixpoint run (es : list Event) (s : Scene) : Scene :=
  match es with
  | [] => s
  | e :: es' => run es' (step e s)
  end.

(** ** The locals of one layout pass

    The values the local variables of [calculateViewport_] take, as
    functions of what the pass reads; the theorems below are stated with
    them. *)

(** [innerWidth] and [innerHeight] after the 320 floor. *)
Definition clampedWidth (h : Host) : Q := Math.max 320 (window_innerWidth h).
Definition clampedHeight (h : Host) : Q := Math.max 320 (window_innerHeight h).

(** The guard of the early return. *)
Definition cache_hit (force : bool) (h : Host) (s : Scene) : bool :=
  negb force &&
  strict_eq (clampedHeight h) (cachedWindowHeight_ s) &&
  strict_eq (clampedWidth h) (cachedWindowWidth_ s).

(** The two ends of the aspect-ratio clamp. *)
Definition aspectRatio_lo : Q := VIEWPORT_MIN_TILES_X / VIEWPORT_MAX_TILES_Y.
Definition aspectRatio_hi : Q := VIEWPORT_MAX_TILES_X / VIEWPORT_MIN_TILES_Y.

(** [aspectRatio]. *)
Definition aspectRatio (h : Host) : Q :=
  Math.min (Math.max (clampedWidth h / 2 / clampedHeight h) aspectRatio_lo)
           aspectRatio_hi.

(** [width] as first assigned, before the portrait branch. *)
Definition derivedWidth (h : Host) : Q := clampedHeight h * aspectRatio h.

(** [tileSize]. *)
Definition tileSize (h : Host) : Q :=
  Math.max (clampedHeight h / VIEWPORT_MAX_TILES_Y)
           (derivedWidth h / VIEWPORT_MAX_TILES_X).

(** [workspaceWidth]. *)
Definition workspaceWidth (h : Host) : Q :=
  clampedWidth h - blockly_toolbarWidth h.

(** The condition of the portrait branch. *)
Definition portraitTrigger (h : Host) : bool :=
  Qltb (workspaceWidth h - derivedWidth h) (BLOCKLY_MIN_WIDTH app_Constants).

(** ** Well-formed layouts and configurations *)

(** Both numbers of the layout are set and strictly positive. *)
Definition positive_layout (s : Scene) : Prop :=
  match width_ s, scaleRatio_ s with
  | Some w, Some r => 0 < w /\ 0 < r
  | _, _ => False
  end.

(** What the layout pass needs from [app.Constants] to stay away from
    degenerate layouts: a positive horizontal tile count and an edge
    narrower than the 320 floor. *)
Definition valid_Constants : Prop :=
  0 < VIEWPORT_MAX_TILES_X /\ EDGE_MIN_WIDTH app_Constants < 320.

(** ** More of the scene *)

(** [app.Scene.prototype.onFinishExecution(result)], with [levels] for
    [app.levels]: the dialog that is shown and the result it is shown
    with.  The scene itself is not written. *)
Definition onFinishExecution (levels : list nat) (result : LevelResult)
    (s : Scene) : Dialog * LevelResult :=
  let result :=
    if level_strict_eq (level s) (last_level levels)
    then {| levelComplete := levelComplete result;
            graphic := if levelComplete result then Some "#result-final"%string
                       else None;
            isFinalLevel := Some true |}
    else result in
  if levelComplete result then (SuccessResult, result)
  else (FailureResult, result).

(** The constructor in full: the scene it builds, its four listeners in
    place and its animation-frame request pending. *)
Definition construct (d : Dom) (h : Host) : Page :=
  {| scene := new_Scene d h;
     resize_listener := true;
     run_listener := true;
     scene_listener := true;
     underlay_listener := true;
     frame_requested := true |}.

(** [app.Scene.prototype.dispose]: the four listeners are removed; the
    animation-frame request is not touched. *)
Definition dispose (p : Page) : Page :=
  {| scene := scene p;
     resize_listener := false;
     run_listener := false;
     scene_listener := false;
     underlay_listener := false;
     frame_requested := frame_requested p |}.

Definition with_scene (s : Scene) (p : Page) : Page :=
  {| scene := s;
     resize_listener := resize_listener p;
     run_listener := run_listener p;
     scene_listener := scene_listener p;
     underlay_listener := underlay_listener p;
     frame_requested := frame_requested p |}.

(** The browser delivers an event: the listener in place, if any, runs;
    the animation-frame callback [() => this.calculateViewport_(true)] runs
    once. *)
Definition deliver (e : BrowserEvent) (p : Page) : Page :=
  match e with
  | BrResize h =>
      if resize_listener p
      then with_scene (calculateViewportHandler_ h (scene p)) p
      else p
  | BrAnimationFrame h =>
      if frame_requested p
      then {| scene := calculateViewport_ true h (scene p);
              resize_listener := resize_listener p;
              run_listener := run_listener p;
              scene_listener := scene_listener p;
              underlay_listener := underlay_listener p;
              frame_requested := false |}
      else p
  | BrClickButton =>
      if run_listener p then with_scene (onClickRun_ (scene p)) p else p
  | BrClickScene =>
      if scene_listener p then with_scene (onClickScene_ (scene p)) p else p
  | BrClickUnderlay =>
      if underlay_listener p
      then with_scene (onClickUnderlay_ (scene p)) p
      else p
  end.

Fixpoint deliver_all (es : list BrowserEvent) (p : Page) : Page :=
  match es with
  | [] => p
  | e :: es' => deliver_all es' (deliver e p)
  end.

(** ** Properties of scenes *)

(** The scene holds the layout of host [h]: cache and layout numbers are
    the ones a pass on [h] stores. *)
Definition laid_out_for (h : Host) (s : Scene) : Prop :=
  cachedWindowHeight_ s = Some (clampedHeight h) /\
  cachedWindowWidth_ s = Some (clampedWidth h) /\
  portraitMode_ s = portraitTrigger h /\
  width_ s =
    Some (if portraitTrigger h
          then clampedWidth h - EDGE_MIN_WIDTH app_Constants
          else derivedWidth h) /\
  scaleRatio_ s = Some (tileSize h / (TILE_OUTER_SIZE * 10)).

(** The DOM shows the layout the scene holds. *)
Definition dom_in_sync (s : Scene) : Prop :=
  parent_responsive (dom s) = portraitMode_ s /\
  el_width_px (dom s) = width_ s /\
  el_fontSize_px (dom s) = option_map (fun r => r * 10) (scaleRatio_ s).

(** The [hidden] attributes follow [visible_]; while [visible_] is still
    [undefined] they are those of the DOM [d] the scene started from. *)
Definition hidden_in_sync (d : Dom) (s : Scene) : Prop :=
  match visible_ s with
  | Some v => el_hidden (dom s) = negb v /\ underlay_hidden (dom s) = negb v
  | None =>
      el_hidden (dom s) = el_hidden d /\
      underlay_hidden (dom s) = underlay_hidden d
  end.

(** Events that run a layout pass. *)
Definition is_viewport_event (e : Event) : bool :=
  match e with
  | EvResize _ | EvAnimationFrame _ | EvCalculateViewport _ _ => true
  | _ => false
  end.

(** The requests to run the blocks among the calls of a scene. *)
Definition is_execution (c : Call) : bool :=
  match c with
  | Execute | ExecuteAfter _ => true
  | _ => false
  end.

(** Clicks on the play button among the events of a run. *)
Definition is_run_click (e : Event) : bool :=
  match e with
  | EvClickRun => true
  | _ => false
  end.

(** The host at the first animation frame among browser events, if any. *)
Fixpoint first_frame (es : list BrowserEvent) : option Host :=
  match es with
  | [] => None
  | BrAnimationFrame h :: _ => Some h
  | _ :: es' => first_frame es'
  end.

(** ** Basic facts *)

Lemma Qltb_lt (a b : Q) : Qltb a b = true <-> a < b.
Proof.
  unfold Qltb. rewrite Qlt_alt.
  destruct (a ?= b); split; intro H; try reflexivity; discriminate H.
Qed.

Lemma Qltb_ge (a b : Q) : Qltb a b = false <-> b <= a.
Proof.
  rewrite Qge_alt. unfold Qltb.
  destruct (a ?= b); split; intro H; try reflexivity; try discriminate H;
    try (intro H'; discriminate H').
  exfalso. apply H. reflexivity.
Qed.

(** A pass that takes the early return hands the scene back untouched. *)
Lemma calculateViewport_hit (force : bool) (h : Host) (s : Scene) :
  cache_hit force h s = true -> calculateViewport_ force h s = s.
Proof.
  unfold cache_hit, clampedHeight, clampedWidth, calculateViewport_.
  intro Hhit. rewrite Hhit. reflexivity.
Qed.

(** What a pass that gets past the early return stores. *)
Lemma calculateViewport_miss (force : bool) (h : Host) (s : Scene) :
  cache_hit force h s = false ->
  let s' := calculateViewport_ force h s in
  cachedWindowHeight_ s' = Some (clampedHeight h) /\
  cachedWindowWidth_ s' = Some (clampedWidth h) /\
  portraitMode_ s' = portraitTrigger h /\
  width_ s' =
    Some (if portraitTrigger h
          then clampedWidth h - EDGE_MIN_WIDTH app_Constants
          else derivedWidth h) /\
  scaleRatio_ s' = Some (tileSize h / (TILE_OUTER_SIZE * 10)) /\
  calls s' = GetToolbarWidth :: calls s.
Proof.
  unfold cache_hit, clampedHeight, clampedWidth. intro Hmiss.
  cbv zeta. unfold calculateViewport_. rewrite Hmiss.
  unfold portraitTrigger, workspaceWidth, tileSize, derivedWidth, aspectRatio,
    aspectRatio_lo, aspectRatio_hi, clampedHeight, clampedWidth.
  destruct (Qltb _ _); cbn; repeat split; reflexivity.
Qed.

(** ** The portrait decision *)


(** C6 (scale ratio).  In a layout pass that gets past the cache check the
    stored [scaleRatio_] is [tileSize / (TILE_OUTER_SIZE * 10)], where
    [tileSize] is the larger of [innerHeight / VIEWPORT_MAX_TILES_Y] and
    [width / VIEWPORT_MAX_TILES_X] for the [width] derived from the aspect
    ratio: the portrait branch, which replaces the stored width, has no
    part in it. *)
Theorem scaleRatio_from_derived_width (force : bool) (h : Host) (s : Scene) :
  cache_hit force h s = false ->
  scaleRatio_ (calculateViewport_ force h s) =
    Some (Math.max (clampedHeight h / VIEWPORT_MAX_TILES_Y)
                   (clampedHeight h * aspectRatio h / VIEWPORT_MAX_TILES_X)
          / (TILE_OUTER_SIZE * 10)).
Proof.
  intro Hmiss.
  destruct (calculateViewport_miss force h s Hmiss)
    as (_ & _ & _ & _ & Hscale & _).
  exact Hscale.
Qed.

(** ** The aspect-ratio clamp *)

Lemma aspectRatio_le_hi (h : Host) : aspectRatio h <= aspectRatio_hi.
Proof. unfold aspectRatio, Math.min. apply Q.le_min_r. Qed.

Lemma aspectRatio_ge_lo (h : Host) :
  aspectRatio_lo <= aspectRatio_hi -> aspectRatio_lo <= aspectRatio h.
Proof.
  intro Hle. unfold aspectRatio, Math.min, Math.max.
  apply Q.min_glb; [apply Q.le_max_r | exact Hle].
Qed.

(** C4 (bounds).  When the lower end of the clamp does not exceed the upper
    one, the aspect ratio of a layout pass lies between
    [VIEWPORT_MIN_TILES_X / VIEWPORT_MAX_TILES_Y] and
    [VIEWPORT_MAX_TILES_X / VIEWPORT_MIN_TILES_Y], ends included; it is the
    ratio the pass stores its results from. *)
Theorem aspectRatio_bounds (force : bool) (h : Host) (s : Scene) :
  VIEWPORT_MIN_TILES_X / VIEWPORT_MAX_TILES_Y <=
    VIEWPORT_MAX_TILES_X / VIEWPORT_MIN_TILES_Y ->
  cache_hit force h s = false ->
  VIEWPORT_MIN_TILES_X / VIEWPORT_MAX_TILES_Y <= aspectRatio h /\
  aspectRatio h <= VIEWPORT_MAX_TILES_X / VIEWPORT_MIN_TILES_Y /\
  aspectRatio h ==
    Math.min (Math.max (clampedWidth h / 2 / clampedHeight h)
                       (VIEWPORT_MIN_TILES_X / VIEWPORT_MAX_TILES_Y))
             (VIEWPORT_MAX_TILES_X / VIEWPORT_MIN_TILES_Y) /\
  scaleRatio_ (calculateViewport_ force h s) =
    Some (Math.max (clampedHeight h / VIEWPORT_MAX_TILES_Y)
                   (clampedHeight h * aspectRatio h / VIEWPORT_MAX_TILES_X)
          / (TILE_OUTER_SIZE * 10)) /\
  (portraitMode_ (calculateViewport_ force h s) = false ->
   width_ (calculateViewport_ force h s) =
     Some (clampedHeight h * aspectRatio h)).
Proof.
  intros Hle Hmiss.
  destruct (calculateViewport_miss force h s Hmiss)
    as (_ & _ & Hmode & Hwidth & Hscale & _).
  split; [exact (aspectRatio_ge_lo h Hle) |].
  split; [exact (aspectRatio_le_hi h) |].
  split; [reflexivity |].
  split; [exact Hscale |].
  rewrite Hmode, Hwidth. intros ->. reflexivity.
Qed.

(** ** The 320 floor *)

Lemma clamp_floor (x : Q) : x < 320 -> Math.max 320 x = 320.
Proof.
  intro Hlt. unfold Math.max, Qmax, GenericMinMax.gmax.
  destruct (320 ?= x) eqn:Hcmp; try reflexivity.
  apply Qlt_alt in Hcmp. exfalso.
  exact (Qlt_irrefl x (Qlt_trans _ _ _ Hlt Hcmp)).
Qed.

Lemma clamp_at_floor : Math.max 320 320 = 320.
Proof. reflexivity. Qed.

Lemma clamp_ge_floor (x : Q) : 320 <= Math.max 320 x.
Proof. unfold Math.max. apply Q.le_max_l. Qed.

(** The layout pass reads the window only through the two clamped
    dimensions. *)
Lemma calculateViewport_clamped (force : bool) (h h' : Host) (s : Scene) :
  Math.max 320 (window_innerWidth h) = Math.max 320 (window_innerWidth h') ->
  Math.max 320 (window_innerHeight h) = Math.max 320 (window_innerHeight h') ->
  blockly_toolbarWidth h = blockly_toolbarWidth h' ->
  calculateViewport_ force h s = calculateViewport_ force h' s.
Proof.
  intros Hw Hh Ht. unfold calculateViewport_. cbv zeta.
  rewrite Hw, Hh, Ht. reflexivity.
Qed.

(** C7 (monotonic floor).  A window narrower and lower than 320 is laid out
    exactly as a 320x320 window: the scene a layout pass returns is the same
    in every field.  Each dimension is floored on its own: a width below 320
    acts as 320 whatever the height, and a height below 320 acts as 320
    whatever the width. *)
Theorem monotonic_floor (force : bool) (w ht t : Q) (s : Scene) :
  w < 320 ->
  ht < 320 ->
  calculateViewport_ force
    {| window_innerWidth := w; window_innerHeight := ht;
       blockly_toolbarWidth := t |} s =
  calculateViewport_ force
    {| window_innerWidth := 320; window_innerHeight := 320;
       blockly_toolbarWidth := t |} s /\
  (forall y : Q,
     calculateViewport_ force
       {| window_innerWidth := w; window_innerHeight := y;
          blockly_toolbarWidth := t |} s =
     calculateViewport_ force
       {| window_innerWidth := 320; window_innerHeight := y;
          blockly_toolbarWidth := t |} s) /\
  (forall x : Q,
     calculateViewport_ force
       {| window_innerWidth := x; window_innerHeight := ht;
          blockly_toolbarWidth := t |} s =
     calculateViewport_ force
       {| window_innerWidth := x; window_innerHeight := 320;
          blockly_toolbarWidth := t |} s).
Proof.
  intros Hw Hh.
  repeat split; intros; apply calculateViewport_clamped; cbn;
    rewrite ?(clamp_floor w Hw), ?(clamp_floor ht Hh), ?clamp_at_floor;
    reflexivity.
Qed.

(** ** The cache *)

Lemma strict_eq_compat (a b : Q) (c : option Q) :
  a == b -> strict_eq a c = true -> strict_eq b c = true.
Proof.
  intros Hab. destruct c as [v |]; cbn; [| discriminate].
  rewrite !Qeq_bool_iff. intro Hav. rewrite <- Hab. exact Hav.
Qed.

Lemma strict_eq_Some (a b : Q) : a == b -> strict_eq a (Some b) = true.
Proof. intro Hab. cbn. apply Qeq_bool_iff. exact Hab. Qed.

Lemma clamp_compat (x y : Q) : x == y -> Math.max 320 x == Math.max 320 y.
Proof. intro Hxy. unfold Math.max. rewrite Hxy. reflexivity. Qed.

(** After any layout pass the cache agrees with the window it was run on. *)
Lemma cache_hit_after (force : bool) (h h' : Host) (s : Scene) :
  window_innerWidth h == window_innerWidth h' ->
  window_innerHeight h == window_innerHeight h' ->
  cache_hit false h' (calculateViewport_ force h s) = true.
Proof.
  intros Hw Hh.
  assert (HW : clampedWidth h == clampedWidth h') by exact (clamp_compat _ _ Hw).
  assert (HH : clampedHeight h == clampedHeight h') by exact (clamp_compat _ _ Hh).
  destruct (cache_hit force h s) eqn:Hhit.
  - rewrite (calculateViewport_hit force h s Hhit).
    unfold cache_hit in *.
    apply andb_true_iff in Hhit as [Hhit Hcw].
    apply andb_true_iff in Hhit as [_ Hch].
    rewrite (strict_eq_compat _ _ _ HH Hch), (strict_eq_compat _ _ _ HW Hcw).
    reflexivity.
  - destruct (calculateViewport_miss force h s Hhit) as (Hch & Hcw & _).
    unfold cache_hit. rewrite Hch, Hcw.
    rewrite (strict_eq_Some _ _ (Qeq_sym _ _ HH)).
    rewrite (strict_eq_Some _ _ (Qeq_sym _ _ HW)).
    reflexivity.
Qed.

(** C3 (idempotence).  Of two consecutive layout passes on windows of the
    same dimensions, the second one unforced, the second takes the early
    return: it hands back the scene of the first pass as it is - width,
    scale ratio, portrait flag, cached window metrics, the DOM and the log
    of calls on the blockly wrapper - so nothing is computed again. *)
Theorem idempotence (force : bool) (h h' : Host) (s : Scene) :
  window_innerWidth h == window_innerWidth h' ->
  window_innerHeight h == window_innerHeight h' ->
  cache_hit false h' (calculateViewport_ force h s) = true /\
  calculateViewport_ false h' (calculateViewport_ force h s) =
    calculateViewport_ force h s.
Proof.
  intros Hw Hh.
  pose proof (cache_hit_after force h h' s Hw Hh) as Hhit.
  split; [exact Hhit | exact (calculateViewport_hit _ _ _ Hhit)].
Qed.


(** ** Degenerate layouts *)

Lemma Qdiv_pos (a b : Q) : 0 < a -> 0 < b -> 0 < a / b.
Proof. intros Ha Hb. apply Qlt_shift_div_l; [exact Hb | lra]. Qed.

Lemma clampedHeight_pos (h : Host) : 0 < clampedHeight h.
Proof.
  apply Qlt_le_trans with 320; [reflexivity | apply clamp_ge_floor].
Qed.

Lemma clampedWidth_pos (h : Host) : 0 < clampedWidth h.
Proof.
  apply Qlt_le_trans with 320; [reflexivity | apply clamp_ge_floor].
Qed.

Lemma aspectRatio_pos (h : Host) :
  0 < VIEWPORT_MAX_TILES_X -> 0 < aspectRatio h.
Proof.
  intro HX. unfold aspectRatio, Math.min, Math.max.
  apply Q.min_glb_lt.
  - apply Qlt_le_trans with (clampedWidth h / 2 / clampedHeight h).
    + apply Qdiv_pos; [apply Qdiv_pos |].
      * apply clampedWidth_pos.
      * reflexivity.
      * apply clampedHeight_pos.
    + apply Q.le_max_l.
  - unfold aspectRatio_hi. apply Qdiv_pos; [exact HX | reflexivity].
Qed.

Lemma derivedWidth_pos (h : Host) :
  0 < VIEWPORT_MAX_TILES_X -> 0 < derivedWidth h.
Proof.
  intro HX. unfold derivedWidth.
  apply Qmult_lt_0_compat; [apply clampedHeight_pos | apply aspectRatio_pos, HX].
Qed.

Lemma tileSize_pos (h : Host) :
  0 < VIEWPORT_MAX_TILES_X -> 0 < tileSize h.
Proof.
  intro HX. unfold tileSize, Math.max.
  apply Qlt_le_trans with (derivedWidth h / VIEWPORT_MAX_TILES_X).
  - apply Qdiv_pos; [apply derivedWidth_pos, HX | exact HX].
  - apply Q.le_max_r.
Qed.

Lemma positive_layout_miss (force : bool) (h : Host) (s : Scene) :
  valid_Constants ->
  cache_hit force h s = false ->
  positive_layout (calculateViewport_ force h s).
Proof.
  intros [HX HE] Hmiss.
  destruct (calculateViewport_miss force h s Hmiss)
    as (_ & _ & _ & Hwidth & Hscale & _).
  unfold positive_layout. rewrite Hwidth, Hscale. split.
  - destruct (portraitTrigger h).
    + pose proof (clamp_ge_floor (window_innerWidth h)) as Hfloor.
      fold (clampedWidth h) in Hfloor. lra.
    + apply derivedWidth_pos, HX.
  - apply Qdiv_pos; [apply tileSize_pos, HX | reflexivity].
Qed.

Lemma positive_layout_calculateViewport_ (force : bool) (h : Host) (s : Scene) :
  valid_Constants ->
  positive_layout s ->
  positive_layout (calculateViewport_ force h s).
Proof.
  intros HK Hs. destruct (cache_hit force h s) eqn:Hhit.
  - rewrite (calculateViewport_hit force h s Hhit). exact Hs.
  - exact (positive_layout_miss force h s HK Hhit).
Qed.

Lemma positive_layout_step (e : Event) (s : Scene) :
  valid_Constants ->
  positive_layout s ->
  positive_layout (step e s).
Proof.
  intros HK Hs.
  destruct e as [h | h | force h | | | | visible userAction | visible | | l |];
    cbn [step];
    try (apply positive_layout_calculateViewport_; assumption);
    try exact Hs.
  - unfold onClickRun_. destruct (portraitMode_ s); exact Hs.
  - destruct userAction; exact Hs.
Qed.

Lemma positive_layout_run (es : list Event) (s : Scene) :
  valid_Constants ->
  positive_layout s ->
  positive_layout (run es s).
Proof.
  intro HK. revert s.
  induction es as [| e es IH]; intros s Hs; cbn [run].
  - exact Hs.
  - apply IH. apply positive_layout_step; assumption.
Qed.

Lemma cache_miss_init (d : Dom) (h : Host) : cache_hit false h (init d) = false.
Proof. reflexivity. Qed.

(** C5 (no degenerate layout).  With a positive horizontal tile count and
    an edge narrower than the 320 floor, every layout pass that gets past
    the cache check stores a strictly positive width and a strictly
    positive scale ratio, in the landscape and in the portrait branch
    alike, for any window and any toolbar width; a pass that takes the
    early return keeps them; and so both are strictly positive in every
    state the scene reaches from its constructor. *)
Theorem no_degenerate_layout :
  valid_Constants ->
  (forall (force : bool) (h : Host) (s : Scene),
     cache_hit force h s = false ->
     positive_layout (calculateViewport_ force h s)) /\
  (forall (force : bool) (h : Host) (s : Scene),
     positive_layout s ->
     positive_layout (calculateViewport_ force h s)) /\
  (forall (d : Dom) (h : Host) (es : list Event),
     positive_layout (run es (new_Scene d h))).
Proof.
  intro HK. repeat split.
  - intros force h s. apply positive_layout_miss, HK.
  - intros force h s. apply positive_layout_calculateViewport_, HK.
  - intros d h es. apply positive_layout_run; [exact HK |].
    apply positive_layout_miss; [exact HK | apply cache_miss_init].
Qed.

(** ** Width reserved for the scene *)



(** ** The portrait toggle *)

Lemma getWidth_portraitToggleScene (visible userAction : bool) (s : Scene) :
  getWidth (portraitToggleScene visible userAction s) = getWidth s.
Proof. destruct userAction; reflexivity. Qed.

(** C9, as amended (portrait toggle).  [portraitToggleScene] leaves the
    stored width, scale ratio, portrait flag and cached window metrics as
    they are, and [visible_] too, so that [getWidth] answers after it what
    it answered before.  What it does change is the 'show' class of the
    parent element, set to the negation of its first argument; with
    [userAction] it also asks the game to dismiss the tray tutorial.
    Nothing else moves: the level, the 'responsive' class, the two styles
    and the two [hidden] attributes are as before, so that the scene after
    the call is the scene before it with that one class and that one call
    put in. *)
Theorem portraitToggleScene_frame (visible userAction : bool) (s : Scene) :
  let s' := portraitToggleScene visible userAction s in
  width_ s' = width_ s /\
  scaleRatio_ s' = scaleRatio_ s /\
  portraitMode_ s' = portraitMode_ s /\
  cachedWindowWidth_ s' = cachedWindowWidth_ s /\
  cachedWindowHeight_ s' = cachedWindowHeight_ s /\
  visible_ s' = visible_ s /\
  getWidth s' = getWidth s /\
  parent_show (dom s') = negb visible /\
  parent_responsive (dom s') = parent_responsive (dom s) /\
  el_fontSize_px (dom s') = el_fontSize_px (dom s) /\
  el_width_px (dom s') = el_width_px (dom s) /\
  calls s' =
    (if userAction then DismissTutorial "codelab_tray.mp4" :: calls s
     else calls s) /\
  level s' = level s /\
  el_hidden (dom s') = el_hidden (dom s) /\
  underlay_hidden (dom s') = underlay_hidden (dom s) /\
  s' =
    {| cachedWindowHeight_ := cachedWindowHeight_ s;
       cachedWindowWidth_ := cachedWindowWidth_ s;
       level := level s;
       portraitMode_ := portraitMode_ s;
       width_ := width_ s;
       scaleRatio_ := scaleRatio_ s;
       visible_ := visible_ s;
       dom := {| parent_responsive := parent_responsive (dom s);
                 parent_show := negb visible;
                 el_fontSize_px := el_fontSize_px (dom s);
                 el_width_px := el_width_px (dom s);
                 el_hidden := el_hidden (dom s);
                 underlay_hidden := underlay_hidden (dom s) |};
       calls := if userAction
                then DismissTutorial "codelab_tray.mp4" :: calls s
                else calls s |}.
Proof.
  cbv zeta. rewrite getWidth_portraitToggleScene.
  destruct userAction; repeat split; reflexivity.
Qed.

(** ** Invariants of the scene *)

(** A property every event keeps holds along every run. *)
Lemma run_invariant (P : Scene -> Prop) :
  (forall (e : Event) (s : Scene), P s -> P (step e s)) ->
  forall (es : list Event) (s : Scene), P s -> P (run es s).
Proof.
  intros Hstep es. induction es as [| e es IH]; intros s Hs; cbn [run].
  - exact Hs.
  - apply IH, Hstep, Hs.
Qed.

Lemma laid_out_for_miss (force : bool) (h : Host) (s : Scene) :
  cache_hit force h s = false ->
  laid_out_for h (calculateViewport_ force h s).
Proof.
  intro Hmiss.
  destruct (calculateViewport_miss force h s Hmiss)
    as (Hch & Hcw & Hmode & Hwidth & Hscale & _).
  repeat split; assumption.
Qed.

Lemma laid_out_step (e : Event) (s : Scene) :
  (exists h, laid_out_for h s) -> exists h, laid_out_for h (step e s).
Proof.
  intros [h0 H0].
  assert (Hpass : forall force h,
            exists h', laid_out_for h' (calculateViewport_ force h s)).
  { intros force h. destruct (cache_hit force h s) eqn:Hhit.
    - rewrite (calculateViewport_hit force h s Hhit). exists h0. exact H0.
    - exists h. exact (laid_out_for_miss force h s Hhit). }
  destruct e as [h | h | force h | | | | visible userAction | visible | | l |];
    cbn [step]; try apply Hpass; exists h0.
  - destruct H0 as (? & ? & ? & ? & ?). repeat split; assumption.
  - destruct H0 as (? & ? & ? & ? & ?). repeat split; assumption.
  - unfold onClickRun_. destruct (portraitMode_ s) eqn:Hp;
      destruct H0 as (? & ? & ? & ? & ?); repeat split;
      cbn; try assumption; congruence.
  - destruct userAction; destruct H0 as (? & ? & ? & ? & ?);
      repeat split; assumption.
  - destruct H0 as (? & ? & ? & ? & ?). repeat split; assumption.
  - destruct H0 as (? & ? & ? & ? & ?). repeat split; assumption.
  - destruct H0 as (? & ? & ? & ? & ?). repeat split; assumption.
  - destruct H0 as (? & ? & ? & ? & ?). repeat split; assumption.
Qed.

Lemma laid_out_reachable (d : Dom) (h : Host) (es : list Event) :
  exists h', laid_out_for h' (run es (new_Scene d h)).
Proof.
  apply (run_invariant (fun s => exists h', laid_out_for h' s)).
  - exact laid_out_step.
  - exists h. apply laid_out_for_miss, cache_miss_init.
Qed.

(** X1 (the layout is always the layout of one window).  In every state the
    scene reaches from its constructor, the cached window size, the
    portrait flag, the width and the scale ratio are together what one
    layout pass stores for some host; in particular, whenever the scene is
    in portrait mode its width is the cached window width minus
    [EDGE_MIN_WIDTH], and the cached window width is at least the 320
    floor. *)
Theorem layout_coherent (d : Dom) (h : Host) (es : list Event) :
  let s := run es (new_Scene d h) in
  (exists h', laid_out_for h' s) /\
  (portraitMode_ s = true ->
   exists cw, cachedWindowWidth_ s = Some cw /\ 320 <= cw /\
              width_ s = Some (cw - EDGE_MIN_WIDTH app_Constants)).
Proof.
  cbv zeta.
  pose proof (laid_out_reachable d h es) as Hex.
  split; [exact Hex |].
  destruct Hex as (h' & _ & Hcw & Hmode & Hwidth & _).
  intro Hp. exists (clampedWidth h').
  rewrite Hmode in Hp. rewrite Hp in Hwidth.
  repeat split; [exact Hcw | apply clamp_ge_floor | exact Hwidth].
Qed.

(** X2 (a forced pass settles at once).  A forced layout pass on the host
    a forced pass has just been run on changes nothing in the scene or
    in the DOM: it only asks the blockly wrapper for the toolbar width once
    more. *)
Theorem forced_pass_settles (h : Host) (s : Scene) :
  calculateViewport_ true h (calculateViewport_ true h s) =
  record_call GetToolbarWidth (calculateViewport_ true h s).
Proof.
  unfold calculateViewport_, record_call. cbn.
  destruct (Qltb _ _); reflexivity.
Qed.

Lemma dom_in_sync_step (e : Event) (s : Scene) :
  dom_in_sync s -> dom_in_sync (step e s).
Proof.
  intros (Hr & Hw & Hf).
  assert (Hpass : forall force h, dom_in_sync (calculateViewport_ force h s)).
  { intros force h. destruct (cache_hit force h s) eqn:Hhit.
    - rewrite (calculateViewport_hit force h s Hhit). repeat split; assumption.
    - unfold cache_hit, clampedHeight, clampedWidth in Hhit.
      unfold calculateViewport_. cbv zeta. rewrite Hhit.
      destruct (Qltb _ _); repeat split; reflexivity. }
  destruct e as [h | h | force h | | | | visible userAction | visible | | l |];
    cbn [step]; try apply Hpass; try (repeat split; assumption).
  - unfold onClickRun_. destruct (portraitMode_ s) eqn:Hp;
      repeat split; cbn; congruence.
  - destruct userAction; repeat split; assumption.
Qed.

(** X3 (the DOM shows the stored layout).  In every state the scene
    reaches from its constructor, the 'responsive' class of the parent
    element is set exactly when [portraitMode_] is, the width style of the
    scene element is [width_] and its font size is ten times
    [scaleRatio_]. *)
Theorem dom_follows_layout (d : Dom) (h : Host) (es : list Event) :
  let s := run es (new_Scene d h) in
  parent_responsive (dom s) = portraitMode_ s /\
  el_width_px (dom s) = width_ s /\
  el_fontSize_px (dom s) = option_map (fun r => r * 10) (scaleRatio_ s).
Proof.
  cbv zeta. apply (run_invariant dom_in_sync).
  - exact dom_in_sync_step.
  - unfold new_Scene, calculateViewport_. cbn.
    destruct (Qltb _ _); repeat split; reflexivity.
Qed.

Lemma hidden_in_sync_step (d : Dom) (e : Event) (s : Scene) :
  hidden_in_sync d s -> hidden_in_sync d (step e s).
Proof.
  intro Hs.
  assert (Hpass : forall force h,
            hidden_in_sync d (calculateViewport_ force h s)).
  { intros force h. destruct (cache_hit force h s) eqn:Hhit.
    - rewrite (calculateViewport_hit force h s Hhit). exact Hs.
    - unfold cache_hit, clampedHeight, clampedWidth in Hhit.
      unfold calculateViewport_. cbv zeta. rewrite Hhit.
      destruct (Qltb _ _); exact Hs. }
  destruct e as [h | h | force h | | | | visible userAction | visible | | l |];
    cbn [step]; try apply Hpass; try exact Hs.
  - unfold onClickRun_. destruct (portraitMode_ s); exact Hs.
  - destruct userAction; exact Hs.
  - split; reflexivity.
Qed.

(** X4 (the hidden attributes follow the visibility flag).  In every state
    the scene reaches from its constructor, once [toggleVisibility] has
    been called the scene element and the underlay are hidden exactly when
    [visible_] is [false]; until then both attributes are as the page had
    them, and no other method writes them. *)
Theorem hidden_follows_visibility (d : Dom) (h : Host) (es : list Event) :
  let s := run es (new_Scene d h) in
  match visible_ s with
  | Some v => el_hidden (dom s) = negb v /\ underlay_hidden (dom s) = negb v
  | None =>
      el_hidden (dom s) = el_hidden d /\
      underlay_hidden (dom s) = underlay_hidden d
  end.
Proof.
  cbv zeta. apply (run_invariant (hidden_in_sync d)).
  - apply hidden_in_sync_step.
  - unfold new_Scene, calculateViewport_, hidden_in_sync. cbn.
    destruct (Qltb _ _); split; reflexivity.
Qed.

Lemma step_keeps_layout (e : Event) (s : Scene) :
  is_viewport_event e = false ->
  cachedWindowHeight_ (step e s) = cachedWindowHeight_ s /\
  cachedWindowWidth_ (step e s) = cachedWindowWidth_ s /\
  portraitMode_ (step e s) = portraitMode_ s /\
  width_ (step e s) = width_ s /\
  scaleRatio_ (step e s) = scaleRatio_ s /\
  parent_responsive (dom (step e s)) = parent_responsive (dom s) /\
  el_width_px (dom (step e s)) = el_width_px (dom s) /\
  el_fontSize_px (dom (step e s)) = el_fontSize_px (dom s).
Proof.
  destruct e as [h | h | force h | | | | visible userAction | visible | | l |];
    cbn [is_viewport_event step]; intro He; try discriminate He;
    try (repeat split; reflexivity).
  - unfold onClickRun_. destruct (portraitMode_ s) eqn:Hp;
      repeat split; cbn; congruence.
  - destruct userAction; repeat split; reflexivity.
Qed.

(** X5 (only layout passes touch the layout).  A run of events none of
    which is a layout pass - clicks, both toggles, [reset], [setLevel],
    [restartLevel] - leaves the cached window size, the portrait flag, the
    width and the scale ratio as they were, and with them the 'responsive'
    class and the two styles of the scene element. *)
Theorem layout_changes_only_in_passes (es : list Event) (s : Scene) :
  forallb (fun e => negb (is_viewport_event e)) es = true ->
  cachedWindowHeight_ (run es s) = cachedWindowHeight_ s /\
  cachedWindowWidth_ (run es s) = cachedWindowWidth_ s /\
  portraitMode_ (run es s) = portraitMode_ s /\
  width_ (run es s) = width_ s /\
  scaleRatio_ (run es s) = scaleRatio_ s /\
  parent_responsive (dom (run es s)) = parent_responsive (dom s) /\
  el_width_px (dom (run es s)) = el_width_px (dom s) /\
  el_fontSize_px (dom (run es s)) = el_fontSize_px (dom s).
Proof.
  revert s. induction es as [| e es IH]; intros s Hall; cbn [run].
  - repeat split; reflexivity.
  - cbn [forallb] in Hall. apply andb_true_iff in Hall as [He Hes].
    apply negb_true_iff in He.
    destruct (step_keeps_layout e s He)
      as (H1 & H2 & H3 & H4 & H5 & H6 & H7 & H8).
    destruct (IH (step e s) Hes) as (I1 & I2 & I3 & I4 & I5 & I6 & I7 & I8).
    repeat split; congruence.
Qed.

(** ** How wide the scene gets *)

(** The derived width reads the host through its clamped window only. *)
Lemma derivedWidth_toolbar (w ht t t' : Q) :
  derivedWidth {| window_innerWidth := w; window_innerHeight := ht;
                  blockly_toolbarWidth := t |} =
  derivedWidth {| window_innerWidth := w; window_innerHeight := ht;
                  blockly_toolbarWidth := t' |}.
Proof. reflexivity. Qed.

(** X6 (landscape leaves room for the workspace).  When a layout pass that
    gets past the cache check leaves the scene in landscape mode, the
    stored width, the toolbar width and [BLOCKLY_MIN_WIDTH] fit side by
    side in the clamped window width. *)
Theorem landscape_leaves_room (force : bool) (h : Host) (s : Scene) :
  cache_hit force h s = false ->
  portraitMode_ (calculateViewport_ force h s) = false ->
  exists w,
    width_ (calculateViewport_ force h s) = Some w /\
    w + blockly_toolbarWidth h + BLOCKLY_MIN_WIDTH app_Constants
      <= clampedWidth h.
Proof.
  intros Hmiss Hland.
  destruct (calculateViewport_miss force h s Hmiss)
    as (_ & _ & Hmode & Hwidth & _).
  rewrite Hmode in Hland. rewrite Hland in Hwidth.
  exists (derivedWidth h). split; [exact Hwidth |].
  apply Qltb_ge in Hland. unfold workspaceWidth in Hland. lra.
Qed.

(** X7 (a wider toolbar never leaves portrait mode).  For one window, if
    the portrait branch is taken with some toolbar width it is taken with
    every larger one; put the other way, landscape mode with some toolbar
    width is kept with every smaller one. *)
Theorem portrait_monotone_in_toolbar (w ht t t' : Q) :
  t <= t' ->
  portraitTrigger {| window_innerWidth := w; window_innerHeight := ht;
                     blockly_toolbarWidth := t |} = true ->
  portraitTrigger {| window_innerWidth := w; window_innerHeight := ht;
                     blockly_toolbarWidth := t' |} = true.
Proof.
  intros Htt Hp. apply Qltb_lt. apply Qltb_lt in Hp.
  unfold workspaceWidth, clampedWidth in *. cbn in *.
  rewrite (derivedWidth_toolbar w ht t' t). lra.
Qed.

(** ** What the blockly workspace is told *)

(** X10 (the reserved width is a number).  In every state the scene
    reaches from its constructor [getWidth] answers a number, never
    [undefined]; with a positive horizontal tile count and an edge between
    0 and the 320 floor that number is not negative. *)
Theorem getWidth_defined (d : Dom) (h : Host) (es : list Event) :
  exists q,
    getWidth (run es (new_Scene d h)) = Some q /\
    (valid_Constants -> 0 <= EDGE_MIN_WIDTH app_Constants -> 0 <= q).
Proof.
  destruct (laid_out_reachable d h es) as (h' & _ & _ & _ & Hwidth & _).
  unfold getWidth.
  destruct (negb (truthy (visible_ (run es (new_Scene d h))))).
  - exists 0. split; [reflexivity |]. intros _ _. apply Qle_refl.
  - destruct (portraitMode_ (run es (new_Scene d h))).
    + exists (EDGE_MIN_WIDTH app_Constants). split; [reflexivity |].
      intros _ HE. exact HE.
    + rewrite Hwidth. eexists. split; [reflexivity |]. intros HK _.
      assert (Hpos : positive_layout (run es (new_Scene d h))).
      { apply positive_layout_run; [exact HK |].
        apply positive_layout_miss; [exact HK | apply cache_miss_init]. }
      unfold positive_layout in Hpos. rewrite Hwidth in Hpos.
      destruct (scaleRatio_ (run es (new_Scene d h))); [| contradiction].
      apply Qlt_le_weak, Hpos.
Qed.

(** ** Requests to run the blocks *)

Lemma executions_step (e : Event) (s : Scene) :
  filter is_execution (calls (step e s)) =
    if is_run_click e
    then (if portraitMode_ s
          then ExecuteAfter (SCENE_TOGGLE_DURATION app_Constants)
          else Execute) :: filter is_execution (calls s)
    else filter is_execution (calls s).
Proof.
  assert (Hpass : forall force h,
            filter is_execution (calls (calculateViewport_ force h s)) =
            filter is_execution (calls s)).
  { intros force h. destruct (cache_hit force h s) eqn:Hhit.
    - rewrite (calculateViewport_hit force h s Hhit). reflexivity.
    - destruct (calculateViewport_miss force h s Hhit)
        as (_ & _ & _ & _ & _ & Hcalls).
      rewrite Hcalls. reflexivity. }
  destruct e as [h | h | force h | | | | visible userAction | visible | | l |];
    cbn [step is_run_click]; try apply Hpass; try reflexivity.
  - unfold onClickRun_. destruct (portraitMode_ s); reflexivity.
  - destruct userAction; reflexivity.
Qed.

(** X11 (one execution per click on play).  Along any run of events the
    requests to run the blocks in the call log grow by exactly one per
    click on the play button - a delayed one, by [SCENE_TOGGLE_DURATION],
    when the scene was in portrait mode at the click, an immediate one
    otherwise - and no other event adds any. *)
Theorem one_execution_per_run_click (es : list Event) (s : Scene) :
  List.length (filter is_execution (calls (run es s))) =
    (List.length (filter is_run_click es) +
     List.length (filter is_execution (calls s)))%nat /\
  (forall s0 : Scene,
     filter is_execution (calls (step EvClickRun s0)) =
       (if portraitMode_ s0
        then ExecuteAfter (SCENE_TOGGLE_DURATION app_Constants)
        else Execute) :: filter is_execution (calls s0)).
Proof.
  split.
  - revert s. induction es as [| e es IH]; intro s; cbn [run filter].
    + reflexivity.
    + rewrite IH, executions_step.
      destruct (is_run_click e); [destruct (portraitMode_ s) |]; cbn; lia.
  - intro s0. exact (executions_step EvClickRun s0).
Qed.

(** ** The end of a run of the blocks *)

Lemma last_level_app (levels : list nat) (l : nat) :
  last_level (levels ++ [l]) = Some l.
Proof.
  unfold last_level.
  destruct (levels ++ [l]) as [| x xs] eqn:Happ.
  - destruct levels; discriminate Happ.
  - rewrite <- Happ, length_app. cbn [List.length].
    replace (List.length levels + 1 - 1)%nat with (List.length levels) by lia.
    rewrite nth_error_app2 by lia.
    rewrite Nat.sub_diag. reflexivity.
Qed.

(** X12 (the last level is the final one).  When the level of the scene is
    the last element of the array of levels, the result is shown marked as
    final, and its graphic is replaced whatever it was: by '#result-final'
    in the success dialog when the level is complete, by [null] in the
    failure dialog when it is not. *)
Theorem finish_on_last_level (levels : list nat) (l : nat)
    (result : LevelResult) (s : Scene) :
  onFinishExecution (levels ++ [l]) result (setLevel l s) =
    if levelComplete result
    then (SuccessResult,
          {| levelComplete := true;
             graphic := Some "#result-final"%string;
             isFinalLevel := Some true |})
    else (FailureResult,
          {| levelComplete := false;
             graphic := None;
             isFinalLevel := Some true |}).
Proof.
  unfold onFinishExecution. rewrite last_level_app. cbn [setLevel level].
  unfold level_strict_eq. rewrite Nat.eqb_refl. cbn.
  destruct (levelComplete result); reflexivity.
Qed.

(** X13 (no level, no final level).  While the scene has no level - fresh
    from its constructor or after [reset] - no array of levels, the empty
    one included, makes a run final: the result is shown as it came, in the
    success dialog if the level is complete and in the failure dialog if
    not.  The same holds for any level when the array is empty. *)
Theorem finish_without_level (levels : list nat) (result : LevelResult)
    (d : Dom) (h : Host) (s : Scene) :
  onFinishExecution levels result (new_Scene d h) =
    (if levelComplete result then SuccessResult else FailureResult, result) /\
  onFinishExecution levels result (reset s) =
    (if levelComplete result then SuccessResult else FailureResult, result) /\
  onFinishExecution [] result s =
    (if levelComplete result then SuccessResult else FailureResult, result).
Proof.
  assert (Hnew : level (new_Scene d h) = None).
  { unfold new_Scene, calculateViewport_. cbn.
    destruct (Qltb _ _); reflexivity. }
  unfold onFinishExecution. rewrite Hnew. cbn [reset level level_strict_eq].
  repeat split; try (destruct (levelComplete result); reflexivity).
  unfold last_level. destruct (level s); cbn;
    destruct (levelComplete result); reflexivity.
Qed.

(** ** Listeners *)

Lemma deliver_disposed (e : BrowserEvent) (p : Page) :
  resize_listener p = false ->
  run_listener p = false ->
  scene_listener p = false ->
  underlay_listener p = false ->
  frame_requested p = false ->
  deliver e p = p.
Proof.
  intros H1 H2 H3 H4 H5.
  destruct e; cbn [deliver]; rewrite ?H1, ?H2, ?H3, ?H4, ?H5; reflexivity.
Qed.

Lemma deliver_all_disposed (es : list BrowserEvent) (p : Page) :
  resize_listener p = false ->
  run_listener p = false ->
  scene_listener p = false ->
  underlay_listener p = false ->
  frame_requested p = false ->
  deliver_all es p = p.
Proof.
  intros H1 H2 H3 H4 H5.
  induction es as [| e es IH]; cbn [deliver_all]; [reflexivity |].
  rewrite (deliver_disposed e p H1 H2 H3 H4 H5). exact IH.
Qed.

(** X14 (what [dispose] leaves running).  After [dispose], resizes and
    clicks reach no listener, but the animation frame the constructor asked
    for is still to come: whatever the browser delivers next, the scene is
    the one the constructor built until the first animation frame, and
    from then on that scene after one forced layout pass on the host of
    that frame. *)
Theorem dispose_keeps_frame_request (d : Dom) (h : Host)
    (es : list BrowserEvent) :
  scene (deliver_all es (dispose (construct d h))) =
    match first_frame es with
    | Some h' => calculateViewport_ true h' (new_Scene d h)
    | None => new_Scene d h
    end.
Proof.
  unfold construct, dispose. cbn [scene frame_requested].
  induction es as [| e es IH]; cbn [deliver_all first_frame]; [reflexivity |].
  destruct e as [h' | h' | | |]; cbn [deliver resize_listener run_listener
    scene_listener underlay_listener frame_requested]; try exact IH.
  rewrite deliver_all_disposed by reflexivity. reflexivity.
Qed.


End Scene.

(** ** The theorems at work on the sample values *)

(** The scene right after construction in a 1200x800 window. *)
Lemma new_Scene_1200x800_portrait :
  let s := new_Scene sample_Constants sample_Dom host_1200x800 in
  portraitMode_ s = true /\
  width_ s = Some (1200 - 48) /\
  parent_responsive (dom s) = true /\
  calls s = [GetToolbarWidth].
Proof. vm_compute. repeat split; reflexivity. Qed.


Lemma idempotence_witness :
  window_innerWidth host_1200x800 == window_innerWidth host_1200x800_collapsed /\
  window_innerHeight host_1200x800 == window_innerHeight host_1200x800_collapsed /\
  calculateViewport_ sample_Constants false host_1200x800_collapsed
    (calculateViewport_ sample_Constants true host_1200x800 (init sample_Dom))
  = calculateViewport_ sample_Constants true host_1200x800 (init sample_Dom).
Proof.
  assert (Hw : window_innerWidth host_1200x800
               == window_innerWidth host_1200x800_collapsed) by reflexivity.
  assert (Hh : window_innerHeight host_1200x800
               == window_innerHeight host_1200x800_collapsed) by reflexivity.
  split; [exact Hw |]. split; [exact Hh |].
  exact (proj2 (idempotence sample_Constants true host_1200x800
                  host_1200x800_collapsed (init sample_Dom) Hw Hh)).
Defined.

Lemma aspectRatio_bounds_witness :
  VIEWPORT_MIN_TILES_X sample_Constants / VIEWPORT_MAX_TILES_Y sample_Constants
    <= VIEWPORT_MAX_TILES_X sample_Constants / VIEWPORT_MIN_TILES_Y /\
  VIEWPORT_MIN_TILES_X sample_Constants / VIEWPORT_MAX_TILES_Y sample_Constants
    <= aspectRatio sample_Constants host_1200x800 /\
  aspectRatio sample_Constants host_1200x800
    <= VIEWPORT_MAX_TILES_X sample_Constants / VIEWPORT_MIN_TILES_Y.
Proof.
  assert (Hle : VIEWPORT_MIN_TILES_X sample_Constants
                  / VIEWPORT_MAX_TILES_Y sample_Constants
                <= VIEWPORT_MAX_TILES_X sample_Constants / VIEWPORT_MIN_TILES_Y)
    by (vm_compute; discriminate).
  assert (Hmiss : cache_hit false host_1200x800 (init sample_Dom) = false)
    by reflexivity.
  split; [exact Hle |].
  destruct (aspectRatio_bounds sample_Constants false host_1200x800
              (init sample_Dom) Hle Hmiss) as (Hlo & Hhi & _).
  split; [exact Hlo | exact Hhi].
Defined.

Lemma valid_sample_Constants : valid_Constants sample_Constants.
Proof. split; vm_compute; reflexivity. Qed.

Lemma no_degenerate_layout_witness :
  valid_Constants sample_Constants /\
  positive_layout
    (run sample_Constants
       [EvToggleVisibility true; EvResize host_200x100; EvClickScene;
        EvCalculateViewport false host_1600x900; EvClickRun]
       (new_Scene sample_Constants sample_Dom host_1200x800)).
Proof.
  split; [exact valid_sample_Constants |].
  exact (proj2 (proj2 (no_degenerate_layout sample_Constants
                         valid_sample_Constants))
           sample_Dom host_1200x800
           [EvToggleVisibility true; EvResize host_200x100; EvClickScene;
            EvCalculateViewport false host_1600x900; EvClickRun]).
Defined.

(** [valid_Constants] cannot be dropped: with an edge as wide as the floor,
    a 320x320 window goes to portrait mode with a width of zero. *)
Lemma wide_edge_degenerates :
  let K := {| LEVEL_USABLE_MAX_COLS := 10;
              LEVEL_USABLE_MIN_COLS := 7;
              LEVEL_USABLE_ROWS := 9;
              BLOCKLY_MIN_WIDTH := 450;
              EDGE_MIN_WIDTH := 320;
              SCENE_TOGGLE_DURATION := 600 |} in
  let s := new_Scene K sample_Dom
             {| window_innerWidth := 320; window_innerHeight := 320;
                blockly_toolbarWidth := 0 |} in
  portraitMode_ s = true /\
  match width_ s with Some w => w == 0 | None => False end /\
  ~ positive_layout s.
Proof.
  vm_compute. split; [reflexivity |]. split; [reflexivity |].
  intros [Hw _]. discriminate Hw.
Qed.

Lemma scaleRatio_from_derived_width_witness :
  cache_hit true host_1200x800
    (new_Scene sample_Constants sample_Dom host_1200x800) = false /\
  scaleRatio_
    (calculateViewport_ sample_Constants true host_1200x800
       (new_Scene sample_Constants sample_Dom host_1200x800))
  = Some (Math.max
            (clampedHeight host_1200x800 / VIEWPORT_MAX_TILES_Y sample_Constants)
            (clampedHeight host_1200x800
             * aspectRatio sample_Constants host_1200x800
             / VIEWPORT_MAX_TILES_X sample_Constants)
          / (TILE_OUTER_SIZE * 10)).
Proof.
  assert (Hmiss : cache_hit true host_1200x800
                    (new_Scene sample_Constants sample_Dom host_1200x800)
                  = false) by reflexivity.
  split; [exact Hmiss |].
  exact (scaleRatio_from_derived_width sample_Constants true host_1200x800
           (new_Scene sample_Constants sample_Dom host_1200x800) Hmiss).
Defined.

Lemma monotonic_floor_witness :
  200 < 320 /\
  100 < 320 /\
  calculateViewport_ sample_Constants false host_200x100 (init sample_Dom) =
  calculateViewport_ sample_Constants false
    {| window_innerWidth := 320; window_innerHeight := 320;
       blockly_toolbarWidth := 0 |} (init sample_Dom).
Proof.
  assert (Hw : 200 < 320) by reflexivity.
  assert (Hh : 100 < 320) by reflexivity.
  split; [exact Hw |]. split; [exact Hh |].
  exact (proj1 (monotonic_floor sample_Constants false 200 100 0
                  (init sample_Dom) Hw Hh)).
Defined.

(** The toolbar has collapsed since the scene was laid out: a fresh pass
    would choose landscape, the unforced pass on the unchanged window keeps
    portrait, and the forced one switches. *)
Lemma stale_portrait_after_toolbar_collapse :
  let s := new_Scene sample_Constants sample_Dom host_1200x800 in
  portraitTrigger sample_Constants host_1200x800_collapsed = false /\
  portraitMode_
    (calculateViewport_ sample_Constants false host_1200x800_collapsed s)
    = true /\
  calls (calculateViewport_ sample_Constants false host_1200x800_collapsed s)
    = [GetToolbarWidth] /\
  portraitMode_
    (calculateViewport_ sample_Constants true host_1200x800_collapsed s)
    = false /\
  calls (calculateViewport_ sample_Constants true host_1200x800_collapsed s)
    = [GetToolbarWidth; GetToolbarWidth].
Proof. vm_compute. repeat split; reflexivity. Qed.



(** C9, as stated, has the toggle change what [getWidth] answers while the
    scene is hidden.  It does not: on a scene that is hidden, and on one
    that is visible in portrait mode, none of the four ways of calling
    [portraitToggleScene] changes the answer of [getWidth]. *)
Lemma portraitToggleScene_getWidth_unchanged :
  let shown :=
    toggleVisibility true
      (new_Scene sample_Constants sample_Dom host_1200x800) in
  let hidden := toggleVisibility false shown in
  getWidth sample_Constants hidden = Some 0 /\
  getWidth sample_Constants shown = Some 48 /\
  ~ (exists visible userAction : bool,
       getWidth sample_Constants
         (portraitToggleScene visible userAction hidden)
       <> getWidth sample_Constants hidden) /\
  ~ (exists visible userAction : bool,
       getWidth sample_Constants
         (portraitToggleScene visible userAction shown)
       <> getWidth sample_Constants shown).
Proof.
  intros shown hidden.
  split; [reflexivity |]. split; [reflexivity |].
  split; intros (visible & userAction & Hneq); apply Hneq;
    apply getWidth_portraitToggleScene.
Qed.

(** ** Arrays *)

Lemma indexOf_range (x : nat) (l : list nat) :
  (-1 <= indexOf x l < Z.of_nat (List.length l))%Z.
Proof.
  induction l as [| y l IH]; cbn [indexOf List.length]; [lia |].
  destruct (Nat.eqb y x); [lia |].
  destruct (Z.ltb_spec (indexOf x l) 0); lia.
Qed.

Lemma indexOf_absent (x : nat) (l : list nat) :
  ~ In x l -> indexOf x l = (-1)%Z.
Proof.
  induction l as [| y l IH]; cbn [indexOf]; intro Hnot; [reflexivity |].
  destruct (Nat.eqb_spec y x) as [-> | _].
  - exfalso. apply Hnot. left. reflexivity.
  - rewrite IH; [reflexivity |]. intro Hin. apply Hnot. right. exact Hin.
Qed.

Lemma indexOf_first (x : nat) (l1 l2 : list nat) :
  ~ In x l1 -> indexOf x (l1 ++ x :: l2) = Z.of_nat (List.length l1).
Proof.
  induction l1 as [| y l1 IH]; cbn [indexOf List.length app]; intro Hnot.
  - rewrite Nat.eqb_refl. reflexivity.
  - destruct (Nat.eqb_spec y x) as [-> | _].
    + exfalso. apply Hnot. left. reflexivity.
    + rewrite IH by (intro Hin; apply Hnot; right; exact Hin).
      destruct (Z.ltb_spec (Z.of_nat (List.length l1)) 0); lia.
Qed.

Lemma first_occurrence (x : nat) (l : list nat) :
  In x l -> exists l1 l2, l = l1 ++ x :: l2 /\ ~ In x l1.
Proof.
  induction l as [| y l IH]; intro Hin; [contradiction |].
  destruct (Nat.eq_dec y x) as [-> | Hne].
  - exists [], l. split; [reflexivity | intros []].
  - destruct Hin as [Heq | Hin]; [contradiction |].
    destruct (IH Hin) as (l1 & l2 & -> & Hnot).
    exists (y :: l1), l2. split; [reflexivity |].
    intros [Heq | Hin1]; [exact (Hne Heq) | exact (Hnot Hin1)].
Qed.

Lemma splice_one_at (l1 l2 : list nat) (x : nat) :
  splice (Z.of_nat (List.length l1)) 1 (l1 ++ x :: l2) = l1 ++ l2.
Proof.
  unfold splice. rewrite length_app. cbn [List.length].
  destruct (Z.ltb_spec (Z.of_nat (List.length l1)) 0) as [Hneg | _]; [lia |].
  replace (Z.to_nat (Z.min (Z.of_nat (List.length l1))
                       (Z.of_nat (List.length l1 + S (List.length l2)))))
    with (List.length l1) by lia.
  replace (Z.to_nat _) with (S (List.length l1)) by lia.
  rewrite firstn_app, firstn_all, Nat.sub_diag, app_nil_r.
  rewrite skipn_app, skipn_all2 by lia.
  replace (S (List.length l1) - List.length l1)%nat with 1%nat by lia.
  reflexivity.
Qed.

Lemma splice_one_from_end (l : list nat) :
  splice (-1) 1 l = removelast l.
Proof.
  induction l as [| x l _] using rev_ind; [reflexivity |].
  rewrite removelast_last. unfold splice. rewrite length_app.
  cbn [List.length Z.ltb Z.compare].
  replace (Z.to_nat (Z.max (Z.of_nat (List.length l + 1) + -1) 0))
    with (List.length l) by lia.
  replace (Z.to_nat _) with (S (List.length l)) by lia.
  rewrite firstn_app, firstn_all, Nat.sub_diag, app_nil_r.
  rewrite skipn_all2 by (rewrite length_app; cbn; lia).
  apply app_nil_r.
Qed.

(** ** The pick handlers of the hex map *)

Module HexGeometryMapFacts.

Import HexGeometryMap.

Lemma unsubscribe_first (handler : Handler) (l1 l2 : list Handler) (m : t) :
  pickHandlers m = l1 ++ handler :: l2 ->
  ~ In handler l1 ->
  pickHandlers (unsubscribe handler m) = l1 ++ l2.
Proof.
  intros Hm Hnot. cbn [unsubscribe pickHandlers].
  rewrite Hm, (indexOf_first handler l1 l2 Hnot). apply splice_one_at.
Qed.

Lemma unsubscribe_absent (handler : Handler) (m : t) :
  ~ In handler (pickHandlers m) ->
  pickHandlers (unsubscribe handler m) = removelast (pickHandlers m).
Proof.
  intro Hnot. cbn [unsubscribe pickHandlers].
  rewrite (indexOf_absent handler _ Hnot). apply splice_one_from_end.
Qed.

Lemma t_eq (m m' : t) :
  pickHandlers m = pickHandlers m' ->
  HexGeometryMap.map m = HexGeometryMap.map m' ->
  tileCount m = tileCount m' ->
  m = m'.
Proof.
  destruct m, m'. cbn. intros -> -> ->. reflexivity.
Qed.

(** X16 (unsubscribing undoes a subscription).  The function [handlePick]
    returns removes the first registration of its handler and leaves the
    other registrations in their order; called right after [handlePick]
    for a handler that was not registered before, it gives back the map as
    it was. *)
Theorem unsubscribe_after_handlePick (handler : Handler) (m : t) :
  ~ In handler (pickHandlers m) ->
  unsubscribe handler (handlePick handler m) = m /\
  (forall (l1 l2 : list Handler) (m' : t),
     pickHandlers m' = l1 ++ handler :: l2 ->
     ~ In handler l1 ->
     pickHandlers (unsubscribe handler m') = l1 ++ l2).
Proof.
  intro Hnot. split.
  - apply t_eq; try reflexivity.
    rewrite (unsubscribe_first handler (pickHandlers m) []
               (handlePick handler m) eq_refl Hnot).
    apply app_nil_r.
  - intros l1 l2 m'. apply unsubscribe_first.
Qed.

(** X17 (a stale unsubscribe removes somebody else).  Called while its
    handler is not registered - a second time, or once [setup] has emptied
    the list - the function [handlePick] returned removes the last handler
    of the list, whoever registered it; on an empty list it does nothing.
    So two calls in a row after one [handlePick] cost the map the handler
    registered just before. *)
Theorem stale_unsubscribe_removes_last (handler : Handler) (m : t) :
  ~ In handler (pickHandlers m) ->
  pickHandlers (unsubscribe handler m) = removelast (pickHandlers m) /\
  pickHandlers (unsubscribe handler (unsubscribe handler (handlePick handler m)))
    = removelast (pickHandlers m).
Proof.
  intro Hnot. split; [exact (unsubscribe_absent handler m Hnot) |].
  assert (Hback : unsubscribe handler (handlePick handler m) = m).
  { apply t_eq; try reflexivity.
    rewrite (unsubscribe_first handler (pickHandlers m) []
               (handlePick handler m) eq_refl Hnot).
    apply app_nil_r. }
  rewrite Hback. exact (unsubscribe_absent handler m Hnot).
Qed.

(** X18 (each unsubscribe costs one handler).  Whatever handler it was
    made for and whatever the list holds, a call of a function returned by
    [handlePick] shortens a non-empty list of pick handlers by exactly one
    and leaves an empty one empty; [handlePick] lengthens it by one. *)
Theorem unsubscribe_length (handler : Handler) (m : t) :
  List.length (pickHandlers (unsubscribe handler m)) =
    (List.length (pickHandlers m) - 1)%nat /\
  List.length (pickHandlers (handlePick handler m)) =
    S (List.length (pickHandlers m)).
Proof.
  split.
  - destruct (in_dec Nat.eq_dec handler (pickHandlers m)) as [Hin | Hout].
    + destruct (first_occurrence handler _ Hin) as (l1 & l2 & Hm & Hnot).
      rewrite (unsubscribe_first handler l1 l2 m Hm Hnot), Hm.
      rewrite !length_app. cbn [List.length]. lia.
    + rewrite (unsubscribe_absent handler m Hout).
      destruct (pickHandlers m) as [| x l] eqn:Hl; [reflexivity |].
      assert (Hne : x :: l <> []) by discriminate.
      destruct (exists_last Hne) as (l' & y & ->).
      rewrite removelast_last, length_app. cbn [List.length]. lia.
  - cbn [handlePick pickHandlers]. rewrite length_app. cbn [List.length]. lia.
Qed.

(** X19 ([setup] drops the handlers).  [setup] empties the list of pick
    handlers, so handlers registered before it are no longer called; and a
    function returned by [handlePick] before [setup], called after another
    handler has registered, removes that handler: the list is empty again
    and a pick calls nobody. *)
Theorem setup_drops_handlers (body : Handler -> list Action)
    (event : PickEvent) (grid_width grid_height : Z)
    (old fresh : Handler) (m : t) :
  let m1 := setup grid_width grid_height (handlePick old m) in
  let m2 := unsubscribe old (handlePick fresh m1) in
  pickHandlers m1 = [] /\
  snd (pick body event m1) = [] /\
  pickHandlers m2 = [] /\
  snd (pick body event m2) = [].
Proof.
  cbv zeta.
  assert (H2 : pickHandlers
                 (unsubscribe old
                    (handlePick fresh
                       (setup grid_width grid_height (handlePick old m))))
               = []).
  { cbn [unsubscribe handlePick setup pickHandlers app indexOf].
    destruct (Nat.eqb fresh old); reflexivity. }
  split; [reflexivity |]. split; [reflexivity |]. split; [exact H2 |].
  unfold pick. rewrite H2. reflexivity.
Qed.

Lemma forEach_past_end (body : Handler -> list Action) (event : PickEvent)
    (n k : nat) (m : t) (log : list (Handler * PickEvent)) :
  (List.length (pickHandlers m) <= k)%nat ->
  forEach body event n k m log = (m, log).
Proof.
  revert k. induction n as [| n IH]; intros k Hk; cbn [forEach]; [reflexivity |].
  assert (Hnone : nth_error (pickHandlers m) k = None)
    by (apply nth_error_None; exact Hk).
  rewrite Hnone. apply IH. lia.
Qed.

Lemma forEach_step (body : Handler -> list Action) (event : PickEvent)
    (n k : nat) (handler : Handler) (m : t)
    (log : list (Handler * PickEvent)) :
  nth_error (pickHandlers m) k = Some handler ->
  forEach body event (S n) k m log =
  forEach body event n (S k) (perform_all (body handler) m)
    (log ++ [(handler, event)]).
Proof. intro Hk. cbn [forEach]. rewrite Hk. reflexivity. Qed.

Lemma forEach_inert (body : Handler -> list Action) (event : PickEvent)
    (mid : list Handler) :
  forall (n : nat) (pre post : list Handler) (m : t)
         (log : list (Handler * PickEvent)),
    pickHandlers m = pre ++ mid ++ post ->
    (forall handler, In handler mid -> body handler = []) ->
    forEach body event (List.length mid + n) (List.length pre) m log =
    forEach body event n (List.length pre + List.length mid) m
      (log ++ List.map (fun handler => (handler, event)) mid).
Proof.
  induction mid as [| x mid IH]; intros n pre post m log Hm Hinert.
  - cbn [List.length List.map Nat.add]. rewrite Nat.add_0_r, app_nil_r.
    reflexivity.
  - cbn [List.length Nat.add forEach].
    assert (Hx : nth_error (pickHandlers m) (List.length pre) = Some x).
    { rewrite Hm, nth_error_app2 by lia. rewrite Nat.sub_diag. reflexivity. }
    rewrite Hx, (Hinert x (or_introl eq_refl)). cbn [perform_all].
    replace (S (List.length pre)) with (List.length (pre ++ [x]))
      by (rewrite length_app; cbn; lia).
    rewrite (IH n (pre ++ [x]) post m (log ++ [(x, event)])).
    + rewrite length_app. cbn [List.length List.map].
      rewrite <- app_assoc. cbn [app].
      replace (List.length pre + 1 + List.length mid)%nat
        with (List.length pre + S (List.length mid))%nat by lia.
      reflexivity.
    + rewrite Hm, <- app_assoc. reflexivity.
    + intros handler Hin. apply Hinert. right. exact Hin.
Qed.

(** X20 (a pick reaches every handler in order).  When no registered
    handler touches the list while it runs, a pick event calls every
    registered handler once per registration, in the order of
    registration, each with the event, and leaves the map as it was. *)
Theorem pick_calls_every_handler (body : Handler -> list Action)
    (event : PickEvent) (m : t) :
  (forall handler, In handler (pickHandlers m) -> body handler = []) ->
  pick body event m =
    (m, List.map (fun handler => (handler, event)) (pickHandlers m)).
Proof.
  intro Hinert. unfold pick.
  pose proof (forEach_inert body event (pickHandlers m) 0 [] [] m []) as Hrun.
  cbn [List.length app Nat.add] in Hrun.
  rewrite Nat.add_0_r, app_nil_r in Hrun.
  rewrite Hrun by (reflexivity || exact Hinert).
  reflexivity.
Qed.

(** X21 (a handler that unsubscribes itself hides the next one).  When a
    handler calls its own unsubscribe function during a pick and the other
    handlers leave the list alone, the handler registered right after it is
    not called for that event, although it stays registered; every other
    handler is called once, in order. *)
Theorem pick_skips_after_self_unsubscribe (body : Handler -> list Action)
    (event : PickEvent) (l1 l2 : list Handler) (a b : Handler) (m : t) :
  pickHandlers m = l1 ++ a :: b :: l2 ->
  body a = [Unsubscribe a] ->
  (forall handler, In handler (l1 ++ b :: l2) -> body handler = []) ->
  pick body event m =
    (unsubscribe a m,
     List.map (fun handler => (handler, event)) (l1 ++ a :: l2)) /\
  pickHandlers (unsubscribe a m) = l1 ++ b :: l2.
Proof.
  intros Hm Ha Hinert.
  assert (Hnot : ~ In a l1).
  { intro Hin. assert (Hnil : body a = [])
      by (apply Hinert, in_or_app; left; exact Hin).
    rewrite Ha in Hnil. discriminate Hnil. }
  pose proof (unsubscribe_first a l1 (b :: l2) m Hm Hnot) as Hm'.
  split; [| exact Hm'].
  unfold pick. rewrite Hm, length_app. cbn [List.length].
  (* the handlers before [a] *)
  pose proof (forEach_inert body event l1 (S (S (List.length l2))) []
                (a :: b :: l2) m []) as H1.
  cbn [List.length app Nat.add] in H1.
  rewrite H1; [| exact Hm
               | intros handler Hin; apply Hinert, in_or_app; left; exact Hin].
  (* [a] itself *)
  assert (Hat : nth_error (pickHandlers m) (List.length l1) = Some a).
  { rewrite Hm, nth_error_app2 by lia. rewrite Nat.sub_diag. reflexivity. }
  rewrite (forEach_step body event _ _ a m _ Hat), Ha.
  cbn [perform_all perform].
  (* the handlers after [b] *)
  pose proof (forEach_inert body event l2 1 (l1 ++ [b]) []
                (unsubscribe a m)
                (List.map (fun handler => (handler, event)) l1 ++ [(a, event)]))
    as H2.
  rewrite length_app in H2. cbn [List.length] in H2.
  replace (S (List.length l2)) with (List.length l2 + 1)%nat by lia.
  replace (S (List.length l1)) with (List.length l1 + 1)%nat by lia.
  rewrite H2;
    [| rewrite Hm', app_nil_r, <- app_assoc; reflexivity
     | intros handler Hin; apply Hinert, in_or_app; right; right; exact Hin].
  rewrite forEach_past_end
    by (rewrite Hm', length_app; cbn [List.length]; lia).
  rewrite map_app. cbn [List.map]. rewrite <- app_assoc. reflexivity.
Qed.

Lemma perform_all_frame (acts : list Action) (m : t) :
  HexGeometryMap.map (perform_all acts m) = HexGeometryMap.map m /\
  tileCount (perform_all acts m) = tileCount m.
Proof.
  revert m. induction acts as [| a acts IH]; intro m; cbn [perform_all].
  - split; reflexivity.
  - destruct (IH (perform a m)) as [Hmap Hcount]. rewrite Hmap, Hcount.
    destruct a; split; reflexivity.
Qed.

Lemma forEach_frame (body : Handler -> list Action) (event : PickEvent)
    (n : nat) :
  forall (k : nat) (m : t) (log : list (Handler * PickEvent)),
    HexGeometryMap.map (fst (forEach body event n k m log))
      = HexGeometryMap.map m /\
    tileCount (fst (forEach body event n k m log)) = tileCount m.
Proof.
  induction n as [| n IH]; intros k m log; cbn [forEach].
  - split; reflexivity.
  - destruct (nth_error (pickHandlers m) k) as [handler |]; [| apply IH].
    destruct (IH (S k) (perform_all (body handler) m)
                (log ++ [(handler, event)])) as [Hmap Hcount].
    destruct (perform_all_frame (body handler) m) as [Hmap' Hcount'].
    split; congruence.
Qed.

(** X22 ([tileCount] and [map] never leave their initial values).  Through
    any sequence of [setup] calls - whatever the size of the grid -
    subscriptions, unsubscriptions and picks, [tileCount] stays at [0] and
    [map] stays [null]: [setup] keeps the tile count it computes in a
    local constant and takes the map from the game without storing it. *)
Theorem tileCount_stays_zero (body : Handler -> list Action) (ops : list Op) :
  tileCount (apply_all body ops new) = 0%Z /\
  HexGeometryMap.map (apply_all body ops new) = None.
Proof.
  assert (Hframe : forall m,
            tileCount (apply_all body ops m) = tileCount m /\
            HexGeometryMap.map (apply_all body ops m) = HexGeometryMap.map m).
  { induction ops as [| o ops IH]; intro m; cbn [apply_all].
    - split; reflexivity.
    - destruct (IH (apply body o m)) as [Hcount Hmap]. rewrite Hcount, Hmap.
      destruct o as [gw gh | handler | handler | event]; cbn [apply];
        try (split; reflexivity).
      unfold pick.
      destruct (forEach_frame body event (List.length (pickHandlers m)) 0 m [])
        as [Hm Hc]. split; assumption. }
  exact (Hframe new).
Qed.

End HexGeometryMapFacts.

(** ** More of the theorems at work *)

Lemma landscape_leaves_room_witness :
  cache_hit false host_1600x900 (init sample_Dom) = false /\
  portraitMode_
    (calculateViewport_ sample_Constants false host_1600x900 (init sample_Dom))
    = false /\
  exists w,
    width_
      (calculateViewport_ sample_Constants false host_1600x900
         (init sample_Dom)) = Some w /\
    w + 250 + 450 <= clampedWidth host_1600x900.
Proof.
  assert (Hmiss : cache_hit false host_1600x900 (init sample_Dom) = false)
    by reflexivity.
  assert (Hland : portraitMode_
                    (calculateViewport_ sample_Constants false host_1600x900
                       (init sample_Dom)) = false) by reflexivity.
  split; [exact Hmiss |]. split; [exact Hland |].
  exact (landscape_leaves_room sample_Constants false host_1600x900
           (init sample_Dom) Hmiss Hland).
Defined.

Lemma portrait_monotone_in_toolbar_witness :
  300 <= 400 /\
  portraitTrigger sample_Constants
    {| window_innerWidth := 1200; window_innerHeight := 800;
       blockly_toolbarWidth := 400 |} = true.
Proof.
  assert (Hle : 300 <= 400) by (vm_compute; discriminate).
  split; [exact Hle |].
  exact (portrait_monotone_in_toolbar sample_Constants 1200 800 300 400
           Hle eq_refl).
Defined.

Lemma layout_changes_only_in_passes_witness :
  let es := [EvClickScene; EvToggleVisibility true; EvClickRun;
             EvSetLevel 0; EvClickUnderlay; EvReset] in
  let s := new_Scene sample_Constants sample_Dom host_1200x800 in
  forallb (fun e => negb (is_viewport_event e)) es = true /\
  width_ (run sample_Constants es s) = width_ s /\
  portraitMode_ (run sample_Constants es s) = portraitMode_ s.
Proof.
  intros es s.
  assert (Hall : forallb (fun e => negb (is_viewport_event e)) es = true)
    by reflexivity.
  split; [exact Hall |].
  destruct (layout_changes_only_in_passes sample_Constants es s Hall)
    as (_ & _ & Hmode & Hwidth & _).
  split; [exact Hwidth | exact Hmode].
Defined.

(** [levels.js] has one level, so the first level is the final one. *)
Lemma only_level_is_final (result : LevelResult) (s : Scene) :
  isFinalLevel (snd (onFinishExecution app_levels result (setLevel 0 s)))
  = Some true.
Proof.
  unfold onFinishExecution. cbn. destruct (levelComplete result); reflexivity.
Qed.

Lemma unsubscribe_after_handlePick_witness :
  let m := HexGeometryMap.handlePick 1
             (HexGeometryMap.handlePick 0 HexGeometryMap.new) in
  ~ In 2%nat (HexGeometryMap.pickHandlers m) /\
  HexGeometryMap.unsubscribe 2 (HexGeometryMap.handlePick 2 m) = m.
Proof.
  intro m.
  assert (Hnot : ~ In 2%nat (HexGeometryMap.pickHandlers m)).
  { cbn. intros [H | [H | []]]; discriminate H. }
  split; [exact Hnot |].
  exact (proj1 (HexGeometryMapFacts.unsubscribe_after_handlePick 2 m Hnot)).
Defined.

Lemma stale_unsubscribe_removes_last_witness :
  let m := HexGeometryMap.handlePick 1
             (HexGeometryMap.handlePick 0 HexGeometryMap.new) in
  ~ In 5%nat (HexGeometryMap.pickHandlers m) /\
  HexGeometryMap.pickHandlers (HexGeometryMap.unsubscribe 5 m) = [0%nat] /\
  HexGeometryMap.pickHandlers
    (HexGeometryMap.unsubscribe 5
       (HexGeometryMap.unsubscribe 5 (HexGeometryMap.handlePick 5 m)))
  = [0%nat].
Proof.
  intro m.
  assert (Hnot : ~ In 5%nat (HexGeometryMap.pickHandlers m)).
  { cbn. intros [H | [H | []]]; discriminate H. }
  split; [exact Hnot |].
  exact (HexGeometryMapFacts.stale_unsubscribe_removes_last 5 m Hnot).
Defined.

Lemma pick_calls_every_handler_witness :
  let m := HexGeometryMap.handlePick 2
             (HexGeometryMap.handlePick 1
                (HexGeometryMap.handlePick 0 HexGeometryMap.new)) in
  HexGeometryMap.pick (fun _ => []) 7 m
  = (m, [(0%nat, 7%nat); (1%nat, 7%nat); (2%nat, 7%nat)]).
Proof.
  intro m.
  exact (HexGeometryMapFacts.pick_calls_every_handler (fun _ => []) 7 m
           (fun _ _ => eq_refl)).
Defined.

Lemma pick_skips_after_self_unsubscribe_witness :
  let body := fun handler : nat =>
                if Nat.eqb handler 1 then [HexGeometryMap.Unsubscribe 1]
                else [] in
  let m := HexGeometryMap.handlePick 3
             (HexGeometryMap.handlePick 2
                (HexGeometryMap.handlePick 1
                   (HexGeometryMap.handlePick 0 HexGeometryMap.new))) in
  snd (HexGeometryMap.pick body 7 m)
    = [(0%nat, 7%nat); (1%nat, 7%nat); (3%nat, 7%nat)] /\
  HexGeometryMap.pickHandlers (fst (HexGeometryMap.pick body 7 m))
    = [0%nat; 2%nat; 3%nat].
Proof.
  intros body m.
  assert (Hinert : forall handler : nat,
            In handler ([0%nat] ++ 2%nat :: [3%nat]) -> body handler = []).
  { intros handler [<- | [<- | [<- | []]]]; reflexivity. }
  destruct (HexGeometryMapFacts.pick_skips_after_self_unsubscribe
              body 7 [0%nat] [3%nat] 1 2 m eq_refl eq_refl Hinert)
    as [Hpick Hleft].
  rewrite Hpick. split; [reflexivity | exact Hleft].
Defined.

(** ** The layout pass in the arithmetic of the code *)

Module Binary64Facts.

Import Binary64.

Lemma SFcompare_antisym (a b : num) :
  SFcompare a b = option_map CompOpp (SFcompare b a).
Proof.
  destruct a as [sa | sa | | sa ma ea], b as [sb | sb | | sb mb eb];
    cbn [SFcompare option_map];
    try destruct sa; try destruct sb; try reflexivity.
  - rewrite (Z.compare_antisym ea eb).
    destruct (ea ?= eb)%Z; cbn [CompOpp]; try reflexivity.
    rewrite (Pos.compare_cont_antisym mb ma Eq). reflexivity.
  - rewrite (Z.compare_antisym ea eb).
    destruct (ea ?= eb)%Z; cbn [CompOpp]; try reflexivity.
    rewrite (Pos.compare_cont_antisym mb ma Eq). reflexivity.
Qed.

(** On doubles [b <= a] rules out [a < b]; neither holds of a [NaN]. *)
Lemma leb_not_ltb (a b : num) : leb b a = true -> ltb a b = false.
Proof.
  unfold leb, ltb, SFleb, SFltb. rewrite (SFcompare_antisym a b).
  destruct (SFcompare b a) as [[| |] |]; cbn; intro H;
    reflexivity || discriminate H.
Qed.

(** The doubles behind the literals of the file: [0.3] is
    [0x1.3333333333333p-2], [0.4] is [0x1.999999999999ap-2], and [1.5],
    [320] and [10] are exact. *)
Lemma literals :
  dec 3 10 = S754_finite false 5404319552844595 (-54) /\
  dec 4 10 = S754_finite false 7205759403792794 (-54) /\
  dec 15 10 = S754_finite false 6755399441055744 (-52) /\
  of_Z 320 = S754_finite false 5629499534213120 (-44) /\
  of_Z 10 = S754_finite false 5629499534213120 (-49).
Proof. vm_compute. repeat split; reflexivity. Qed.

(** The static members of [app.Scene] for the sample configuration come
    out as the doubles [10.6], [7.45], [9.6] and [8.4] of the code. *)
Lemma sample_statics :
  VIEWPORT_MAX_TILES_X sample_Constants = dec 106 10 /\
  VIEWPORT_MIN_TILES_X sample_Constants = dec 745 100 /\
  VIEWPORT_MAX_TILES_Y sample_Constants = dec 96 10 /\
  VIEWPORT_MIN_TILES_Y = dec 96 10 /\
  TILE_OUTER_SIZE = dec 84 10.
Proof. vm_compute. repeat split; reflexivity. Qed.

(** What a pass that gets past the early return stores. *)
Lemma calculateViewport_rounded_miss (K : Constants) (force : bool) (h : Host)
    (s : Scene) :
  cache_hit force h s = false ->
  let trigger :=
    ltb (sub (workspaceWidth h) (derivedWidth K h)) (BLOCKLY_MIN_WIDTH K) in
  portraitMode_ (calculateViewport_ K force h s) = trigger /\
  width_ (calculateViewport_ K force h s) =
    Some (if trigger then sub (clampedWidth h) (EDGE_MIN_WIDTH K)
          else derivedWidth K h) /\
  calls (calculateViewport_ K force h s) = GetToolbarWidth :: calls s.
Proof.
  unfold cache_hit, clampedHeight, clampedWidth. intro Hmiss.
  cbv zeta. unfold calculateViewport_. rewrite Hmiss.
  unfold workspaceWidth, derivedWidth, aspectRatio, clampedHeight,
    clampedWidth.
  destruct (ltb _ _); cbn; repeat split; reflexivity.
Qed.

(** C2 (landscape stability), in the arithmetic of the code.  In a layout
    pass that gets past the cache check, when [workspaceWidth - width], as
    the code computes and rounds it, is at least [BLOCKLY_MIN_WIDTH], the
    scene stores [portraitMode_ = false] and [width_] is the product of
    the clamped height and the aspect ratio, as first derived and
    rounded. *)
Theorem landscape_stability (K : Constants) (force : bool) (h : Host)
    (s : Scene) :
  cache_hit force h s = false ->
  leb (BLOCKLY_MIN_WIDTH K) (sub (workspaceWidth h) (derivedWidth K h))
    = true ->
  portraitMode_ (calculateViewport_ K force h s) = false /\
  width_ (calculateViewport_ K force h s) =
    Some (mul (clampedHeight h) (aspectRatio K h)).
Proof.
  intros Hmiss Hge.
  destruct (calculateViewport_rounded_miss K force h s Hmiss) as (Hmode & Hwidth & _).
  apply leb_not_ltb in Hge.
  rewrite Hmode, Hwidth, Hge. split; reflexivity.
Qed.

(** The other branch, in the same arithmetic: when the rounded difference
    is below [BLOCKLY_MIN_WIDTH], the pass stores portrait mode and the
    rounded [innerWidth - EDGE_MIN_WIDTH]. *)
Lemma portrait_branch_rounded (K : Constants) (force : bool) (h : Host)
    (s : Scene) :
  cache_hit force h s = false ->
  ltb (sub (workspaceWidth h) (derivedWidth K h)) (BLOCKLY_MIN_WIDTH K)
    = true ->
  portraitMode_ (calculateViewport_ K force h s) = true /\
  width_ (calculateViewport_ K force h s) =
    Some (sub (clampedWidth h) (EDGE_MIN_WIDTH K)).
Proof.
  intros Hmiss Hlt.
  destruct (calculateViewport_rounded_miss K force h s Hmiss)
    as (Hmode & Hwidth & _).
  rewrite Hmode, Hwidth, Hlt. split; reflexivity.
Qed.

Lemma landscape_stability_witness :
  cache_hit false (host_px 1600 900 250) (init sample_Dom) = false /\
  leb (BLOCKLY_MIN_WIDTH sample_Constants)
      (sub (workspaceWidth (host_px 1600 900 250))
           (derivedWidth sample_Constants (host_px 1600 900 250))) = true /\
  portraitMode_
    (calculateViewport_ sample_Constants false (host_px 1600 900 250)
       (init sample_Dom)) = false /\
  width_
    (calculateViewport_ sample_Constants false (host_px 1600 900 250)
       (init sample_Dom))
  = Some (mul (clampedHeight (host_px 1600 900 250))
              (aspectRatio sample_Constants (host_px 1600 900 250))).
Proof.
  assert (Hmiss : cache_hit false (host_px 1600 900 250) (init sample_Dom)
                  = false) by reflexivity.
  assert (Hge : leb (BLOCKLY_MIN_WIDTH sample_Constants)
                  (sub (workspaceWidth (host_px 1600 900 250))
                       (derivedWidth sample_Constants (host_px 1600 900 250)))
                = true) by (vm_compute; reflexivity).
  split; [exact Hmiss |]. split; [exact Hge |].
  exact (landscape_stability sample_Constants false (host_px 1600 900 250)
           (init sample_Dom) Hmiss Hge).
Defined.

(** Rounding at work.  In a 1366x657 window the half-width to height
    ratio lies inside the clamp, and the product of the height and that
    ratio is rounded to the double just above 683.  Beside a 233 pixel
    toolbar the difference the code compares with [BLOCKLY_MIN_WIDTH = 450]
    then falls below 450: the pass stores portrait mode and the width
    [1366 - 48].  The same happens in a 900x430 window with no
    toolbar. *)
Lemma rounding_decides_at_1366x657 :
  let h := host_px 1366 657 233 in
  let s := calculateViewport_ sample_Constants false h (init sample_Dom) in
  derivedWidth sample_Constants h = SFsucc prec emax (of_Z 683) /\
  ltb (sub (workspaceWidth h) (derivedWidth sample_Constants h))
      (BLOCKLY_MIN_WIDTH sample_Constants) = true /\
  leb (BLOCKLY_MIN_WIDTH sample_Constants)
      (sub (workspaceWidth h) (derivedWidth sample_Constants h)) = false /\
  portraitMode_ s = true /\
  width_ s = Some (of_Z 1318).
Proof. vm_compute. repeat split; reflexivity. Qed.

Lemma rounding_decides_at_900x430 :
  let h := host_px 900 430 0 in
  let s := calculateViewport_ sample_Constants false h (init sample_Dom) in
  leb (BLOCKLY_MIN_WIDTH sample_Constants)
      (sub (workspaceWidth h) (derivedWidth sample_Constants h)) = false /\
  portraitMode_ s = true /\
  width_ s = Some (of_Z 852).
Proof. vm_compute. repeat split; reflexivity. Qed.

End Binary64Facts.
